(** * Persona.AI: session metrics pipeline, feedback engine and progress tracker

    A shallow embedding of [Persona_Streamlit.py].

    - Python numbers (ints and floats) are modelled as exact rationals [Q];
      [np.mean] is the exact arithmetic mean.
    - Python dicts of metrics are association lists [dict] keyed by
      strings, in insertion order; a read of a missing key raises [KeyError].
    - Python exceptions are the [Error] case of the result type [res]. *)

From Stdlib Require Import String Ascii List ZArith QArith Qabs Lia Lqa Bool.
Import ListNotations.
Open Scope string_scope.
Set Warnings "-register-all".

(** ** Exceptions and the result monad *)

Inductive exn : Type :=
| KeyError (k : string)
| IndexError
| TypeError
| ValueError
| HTTPError (status : Z)
| ConnectionError.

Inductive res (A : Type) : Type :=
| Ok (a : A)
| Error (e : exn).
Arguments Ok {A} a.
Arguments Error {A} e.

Definition bind {A B} (m : res A) (k : A -> res B) : res B :=
  match m with
  | Ok a => k a
  | Error e => Error e
  end.

Notation "'let*' x ':=' m 'in' k" := (bind m (fun x => k))
  (at level 200, x name, m at level 100, k at level 200).

Fixpoint mapM {A B} (f : A -> res B) (l : list A) : res (list B) :=
  match l with
  | [] => Ok []
  | x :: xs => let* y := f x in let* ys := mapM f xs in Ok (y :: ys)
  end.

(** ** Numbers *)

Definition Qgtb (x y : Q) : bool := negb (Qle_bool x y).
Definition Qltb (x y : Q) : bool := negb (Qle_bool y x).

Definition sum (xs : list Q) : Q := fold_right Qplus 0 xs.

(** [np.mean] of a non-empty list of numbers. *)
Definition np_mean (xs : list Q) : Q :=
  sum xs / inject_Z (Z.of_nat (length xs)).

(** ** Metric dicts *)

Definition dict := list (string * Q).

(** [d[k]]: the value of [k], or [KeyError]. *)
Fixpoint dict_get (d : dict) (k : string) : res Q :=
  match d with
  | [] => Error (KeyError k)
  | (k', v) :: d' => if String.eqb k k' then Ok v else dict_get d' k
  end.

(** [d[k] = v]: overwrite in place when present, else append. *)
Fixpoint dict_set (d : dict) (k : string) (v : Q) : dict :=
  match d with
  | [] => [(k, v)]
  | (k', v') :: d' =>
      if String.eqb k k' then (k', v) :: d' else (k', v') :: dict_set d' k v
  end.

Definition dict_keys (d : dict) : list string := map fst d.

(** The shape of the facial and audio dicts built by the source. *)
Record FacialMetrics := mkFacial {
  expression_diversity : Q;
  eye_movement : Q;
  mouth_movement : Q;
  head_position : Q }.

Record AudioMetrics := mkAudio {
  volume : Q;
  pitch_variation : Q;
  speech_rate : Q;
  clarity : Q }.

Definition facial_dict (f : FacialMetrics) : dict :=
  [("expression_diversity", expression_diversity f);
   ("eye_movement", eye_movement f);
   ("mouth_movement", mouth_movement f);
   ("head_position", head_position f)].

Definition audio_dict (a : AudioMetrics) : dict :=
  [("volume", volume a);
   ("pitch_variation", pitch_variation a);
   ("speech_rate", speech_rate a);
   ("clarity", clarity a)].

(** ** The feedback report built by [generate_feedback_fallback] *)

Record FeedbackReport := mkReport {
  overall_score : Q;
  expression_score : Q;
  voice_score : Q;
  strengths : list string;
  areas_to_improve : list string;
  tips : list string }.

Definition add_strength (r : FeedbackReport) (s : string) : FeedbackReport :=
  mkReport (overall_score r) (expression_score r) (voice_score r)
           (strengths r ++ [s]) (areas_to_improve r) (tips r).

Definition add_area (r : FeedbackReport) (s : string) : FeedbackReport :=
  mkReport (overall_score r) (expression_score r) (voice_score r)
           (strengths r) (areas_to_improve r ++ [s]) (tips r).

Definition add_tip (r : FeedbackReport) (s : string) : FeedbackReport :=
  mkReport (overall_score r) (expression_score r) (voice_score r)
           (strengths r) (areas_to_improve r) (tips r ++ [s]).

Definition tip_mouth := "Try to be more expressive with your mouth when speaking".
Definition tip_faster := "Consider speaking a bit faster to maintain audience engagement".
Definition tip_slower := "Try slowing down a bit to ensure clarity".
Definition tip_generic := "Continue practicing to build on your strengths".

(** [generate_feedback_fallback(facial_metrics, audio_metrics)]. *)
Definition generate_feedback_fallback (facial_metrics audio_metrics : dict)
  : res FeedbackReport :=
  let* ed := dict_get facial_metrics "expression_diversity" in
  let* em := dict_get facial_metrics "eye_movement" in
  let* mm := dict_get facial_metrics "mouth_movement" in
  let expression_score := np_mean [ed; em; mm] in
  let* vo := dict_get audio_metrics "volume" in
  let* pv := dict_get audio_metrics "pitch_variation" in
  let* sr := dict_get audio_metrics "speech_rate" in
  let* cl := dict_get audio_metrics "clarity" in
  let voice_score := np_mean [vo; pv; sr; cl] in
  let overall_score := (expression_score + voice_score) / 2 in
  let fb := mkReport overall_score expression_score voice_score [] [] [] in
  (* Identify strengths *)
  let* em := dict_get facial_metrics "eye_movement" in
  let fb := if Qgtb em 70 then add_strength fb "Good eye expressiveness" else fb in
  let* pv := dict_get audio_metrics "pitch_variation" in
  let fb := if Qgtb pv 70 then add_strength fb "Excellent vocal variety" else fb in
  let* cl := dict_get audio_metrics "clarity" in
  let fb := if Qgtb cl 80 then add_strength fb "Clear pronunciation" else fb in
  (* Identify areas to improve *)
  let* mm := dict_get facial_metrics "mouth_movement" in
  let fb := if Qltb mm 60
            then add_tip (add_area fb "Facial expressions") tip_mouth else fb in
  let* sr := dict_get audio_metrics "speech_rate" in
  let fb := if Qltb sr 50
            then add_tip (add_area fb "Speech pace") tip_faster
            else if Qgtb sr 85
            then add_tip (add_area fb "Speech pace") tip_slower
            else fb in
  (* Ensure we have at least some feedback *)
  let fb := match strengths fb with
            | [] => add_strength fb "Consistent delivery"
            | _ => fb
            end in
  let fb := match areas_to_improve fb with
            | [] => add_tip (add_area fb "Fine-tuning your natural style") tip_generic
            | _ => fb
            end in
  Ok fb.

Example fallback_all_ones :
  exists r, generate_feedback_fallback (facial_dict (mkFacial 1 1 1 1))
                                       (audio_dict (mkAudio 1 1 1 1)) = Ok r
            /\ strengths r = ["Consistent delivery"]
            /\ areas_to_improve r = ["Facial expressions"; "Speech pace"].
Proof. eexists; split; [reflexivity | split; reflexivity]. Qed.

(** ** JSON values and the Python operations the remote client applies to them *)

Inductive json : Type :=
| JNull
| JBool (b : bool)
| JNum (q : Q)
| JStr (s : string)
| JArr (l : list json)
| JObj (kvs : list (string * json)).

(** The dict returned by [generate_feedback_fallback], as a JSON object. *)
Definition report_json (r : FeedbackReport) : json :=
  JObj [("overall_score", JNum (overall_score r));
        ("expression_score", JNum (expression_score r));
        ("voice_score", JNum (voice_score r));
        ("strengths", JArr (map JStr (strengths r)));
        ("areas_to_improve", JArr (map JStr (areas_to_improve r)));
        ("tips", JArr (map JStr (tips r)))].

(** A well-formed FeedbackReport: the dict of a report with non-empty
    strengths and areas to improve. *)
Definition valid_report_json (j : json) : Prop :=
  exists r, j = report_json r /\ strengths r <> [] /\ areas_to_improve r <> [].

(** [item in container] for a string [item]: key membership for a dict,
    element equality for a list, substring for a string. *)
Definition py_contains (container : json) (item : string) : res bool :=
  match container with
  | JObj kvs => Ok (existsb (fun kv => String.eqb (fst kv) item) kvs)
  | JArr l => Ok (existsb (fun j => match j with
                                    | JStr s => String.eqb s item
                                    | _ => false
                                    end) l)
  | JStr s => Ok (match String.index 0 item s with Some _ => true | None => false end)
  | _ => Error TypeError
  end.

(** [j[k]] for a string key: a decoded JSON object keeps the last binding of
    a duplicated key. *)
Definition py_getkey (j : json) (k : string) : res json :=
  match j with
  | JObj kvs =>
      match find (fun kv => String.eqb (fst kv) k) (rev kvs) with
      | Some kv => Ok (snd kv)
      | None => Error (KeyError k)
      end
  | _ => Error TypeError
  end.

(** [j[i]] for an integer index. *)
Definition py_getidx (j : json) (i : nat) : res json :=
  match j with
  | JArr l => match nth_error l i with Some v => Ok v | None => Error IndexError end
  | JStr s => match String.get i s with
              | Some c => Ok (JStr (String c EmptyString))
              | None => Error IndexError
              end
  | JObj _ => Error (KeyError "0")
  | _ => Error TypeError
  end.

(** [len(j)]. *)
Definition py_len (j : json) : res nat :=
  match j with
  | JArr l => Ok (length l)
  | JObj kvs => Ok (length (nodup string_dec (map fst kvs)))
  | JStr s => Ok (String.length s)
  | _ => Error TypeError
  end.

(** ** The remote feedback client of [get_gemini_feedback] *)

Definition gemini_url (api_key : string) : string :=
  "https://generativelanguage.googleapis.com/v1beta/models/gemini-pro:generateContent?key="
  ++ api_key.

(** The request sent by [requests.post]: the URL and the values the
    f-string prompt embeds. *)
Record GeminiRequest := mkRequest {
  gr_url : string;
  gr_prompt : string;
  gr_facial : list Q;
  gr_audio : list Q;
  gr_expression_score : Q;
  gr_voice_score : Q;
  gr_overall_score : Q }.

(** What [requests.post] yields: a transport exception or a response. *)
Inductive http_outcome : Type :=
| TransportFailure
| Response (status : Z) (body : string).

(** Outcome of the [try] block: [return feedback] or
    [return generate_feedback_fallback(...)]. *)
Inductive try_outcome : Type :=
| ReturnRemote (feedback : json)
| ReturnFallback.

Definition required_fields : list string :=
  ["overall_score"; "expression_score"; "voice_score";
   "strengths"; "areas_to_improve"; "tips"].

(** [for field in required_fields: if field not in feedback: ...]:
    [Ok false] at the first missing field. *)
Fixpoint check_fields (feedback : json) (fields : list string) : res bool :=
  match fields with
  | [] => Ok true
  | f :: fs =>
      let* present := py_contains feedback f in
      if present then check_fields feedback fs else Ok false
  end.

(** [result['candidates'][0]['content']['parts'][0]['text']]. *)
Definition candidate_text (result : json) : res json :=
  let* c := py_getkey result "candidates" in
  let* c0 := py_getidx c 0 in
  let* content := py_getkey c0 "content" in
  let* parts := py_getkey content "parts" in
  let* p0 := py_getidx parts 0 in
  py_getkey p0 "text".

Section RemoteClient.

(** [json.loads] (also used by [response.json()]): [None] when the text
    is not JSON. *)
Variable json_loads : string -> option json.

Definition loads (s : string) : res json :=
  match json_loads s with Some j => Ok j | None => Error ValueError end.

(** [json.loads(x)] on a value taken from decoded JSON: only a string is
    accepted. *)
Definition loads_value (x : json) : res json :=
  match x with JStr s => loads s | _ => Error TypeError end.

(** The body of the [try] block, from the [requests.post] outcome on. *)
Definition gemini_try (outcome : http_outcome) : res try_outcome :=
  match outcome with
  | TransportFailure => Error ConnectionError
  | Response status body =>
      (* response.raise_for_status() *)
      if (400 <=? status)%Z && (status <? 600)%Z then Error (HTTPError status) else
      let* result := loads body in
      let* has := py_contains result "candidates" in
      let* nonempty :=
        if has then (let* c := py_getkey result "candidates" in
                     let* n := py_len c in Ok (Nat.ltb 0 n))
        else Ok false in
      if nonempty then
        let* text_content := candidate_text result in
        let* feedback := loads_value text_content in
        let* complete := check_fields feedback required_fields in
        if complete then Ok (ReturnRemote feedback) else Ok ReturnFallback
      else Ok ReturnFallback
  end.

(** The remote service, as seen by the client. *)
Variable post : GeminiRequest -> http_outcome.

(** [get_gemini_feedback(facial_metrics, audio_metrics, prompt)] with
    [st.session_state.gemini_api_key = api_key]: the requests sent, and the
    dict returned. *)
Definition get_gemini_feedback (api_key : string) (facial_metrics audio_metrics : dict)
    (prompt : string) : res (list GeminiRequest * json) :=
  if String.eqb api_key "" then
    let* r := generate_feedback_fallback facial_metrics audio_metrics in
    Ok ([], report_json r)
  else
  let* ed := dict_get facial_metrics "expression_diversity" in
  let* em := dict_get facial_metrics "eye_movement" in
  let* mm := dict_get facial_metrics "mouth_movement" in
  let expression_score := np_mean [ed; em; mm] in
  let* vo := dict_get audio_metrics "volume" in
  let* pv := dict_get audio_metrics "pitch_variation" in
  let* sr := dict_get audio_metrics "speech_rate" in
  let* cl := dict_get audio_metrics "clarity" in
  let voice_score := np_mean [vo; pv; sr; cl] in
  let overall_score := (expression_score + voice_score) / 2 in
  (* the f-string prompt also reads head_position *)
  let* hp := dict_get facial_metrics "head_position" in
  let req := mkRequest (gemini_url api_key) prompt [ed; em; mm; hp] [vo; pv; sr; cl]
                       expression_score voice_score overall_score in
  match gemini_try (post req) with
  | Ok (ReturnRemote feedback) => Ok ([req], feedback)
  | _ =>
      let* r := generate_feedback_fallback facial_metrics audio_metrics in
      Ok ([req], report_json r)
  end.

End RemoteClient.

(** The request [get_gemini_feedback] sends for metrics dicts of the
    source's shape. *)
Definition gemini_request (api_key prompt : string) (f : FacialMetrics)
    (a : AudioMetrics) : GeminiRequest :=
  let expression_score :=
    np_mean [expression_diversity f; eye_movement f; mouth_movement f] in
  let voice_score := np_mean [volume a; pitch_variation a; speech_rate a; clarity a] in
  mkRequest (gemini_url api_key) prompt
    [expression_diversity f; eye_movement f; mouth_movement f; head_position f]
    [volume a; pitch_variation a; speech_rate a; clarity a]
    expression_score voice_score ((expression_score + voice_score) / 2).

(** ** A concrete JSON decoder

    A recursive-descent decoder for the JSON fragment used by the concrete
    runs below: objects, arrays, [true], [false], [null], strings with the
    backslash escapes of the quote, backslash, slash, n, t, r, b and f, and
    numbers without exponent. Text outside the fragment is refused ([None]). *)
Module JsonText.

Definition dq : ascii := ascii_of_nat 34.

Definition is_ws (c : ascii) : bool :=
  Ascii.eqb c " " || Ascii.eqb c (ascii_of_nat 10)
  || Ascii.eqb c (ascii_of_nat 9) || Ascii.eqb c (ascii_of_nat 13).

Fixpoint skip_ws (l : list ascii) : list ascii :=
  match l with
  | c :: l' => if is_ws c then skip_ws l' else l
  | [] => []
  end.

Definition unescape (e : ascii) : option ascii :=
  if Ascii.eqb e dq then Some dq
  else if Ascii.eqb e "\" then Some "\"%char
  else if Ascii.eqb e "/" then Some "/"%char
  else if Ascii.eqb e "n" then Some (ascii_of_nat 10)
  else if Ascii.eqb e "t" then Some (ascii_of_nat 9)
  else if Ascii.eqb e "r" then Some (ascii_of_nat 13)
  else if Ascii.eqb e "b" then Some (ascii_of_nat 8)
  else if Ascii.eqb e "f" then Some (ascii_of_nat 12)
  else None.

(** The characters after an opening quote, up to the closing quote. *)
Fixpoint string_body (l : list ascii) (acc : list ascii) : option (string * list ascii) :=
  match l with
  | [] => None
  | c :: l' =>
      if Ascii.eqb c dq then Some (string_of_list_ascii (rev acc), l')
      else if Ascii.eqb c "\" then
        match l' with
        | e :: l'' => match unescape e with
                      | Some u => string_body l'' (u :: acc)
                      | None => None
                      end
        | [] => None
        end
      else if Nat.ltb (nat_of_ascii c) 32 then None
      else string_body l' (c :: acc)
  end.

Definition digit (c : ascii) : option Z :=
  let n := nat_of_ascii c in
  if (Nat.leb 48 n && Nat.leb n 57)%bool then Some (Z.of_nat (n - 48)) else None.

(** A run of digits, as (value, count). *)
Fixpoint digits (l : list ascii) (v : Z) (k : nat) : Z * nat * list ascii :=
  match l with
  | c :: l' => match digit c with
               | Some d => digits l' (10 * v + d) (S k)
               | None => (v, k, l)
               end
  | [] => (v, k, l)
  end.

Definition number (l : list ascii) : option (json * list ascii) :=
  let '(sign, l) := match l with
                    | c :: l' => if Ascii.eqb c "-" then ((-1)%Z, l') else (1%Z, l)
                    | [] => (1%Z, l)
                    end in
  match l with
  | c :: l1 =>
      match digit c with
      | None => None
      | Some d0 =>
          let '(ip, rest) :=
            if Z.eqb d0 0 then (0%Z, l1)
            else let '(v, _, r) := digits l1 d0 0 in (v, r) in
          match rest with
          | c2 :: l2 =>
              if Ascii.eqb c2 "." then
                let '(fv, fk, r) := digits l2 0 0 in
                if Nat.eqb fk 0 then None
                else Some (JNum (inject_Z (sign * ip) +
                                 ((sign * fv) # Z.to_pos (10 ^ Z.of_nat fk)))%Q, r)
              else if Ascii.eqb c2 "e" || Ascii.eqb c2 "E" then None
              else Some (JNum (inject_Z (sign * ip)), rest)
          | [] => Some (JNum (inject_Z (sign * ip)), rest)
          end
      end
  | [] => None
  end.

Definition keyword (w : string) (v : json) (l : list ascii) : option (json * list ascii) :=
  let wl := list_ascii_of_string w in
  if String.eqb (string_of_list_ascii (firstn (length wl) l)) w
  then Some (v, skipn (length wl) l) else None.

Fixpoint value (fuel : nat) (l : list ascii) {struct fuel} : option (json * list ascii) :=
  match fuel with
  | O => None
  | S n =>
      match skip_ws l with
      | [] => None
      | c :: l' =>
          if Ascii.eqb c "{" then
            match skip_ws l' with
            | c2 :: l2 => if Ascii.eqb c2 "}" then Some (JObj [], l2) else members n l' []
            | [] => None
            end
          else if Ascii.eqb c "[" then
            match skip_ws l' with
            | c2 :: l2 => if Ascii.eqb c2 "]" then Some (JArr [], l2) else elements n l' []
            | [] => None
            end
          else if Ascii.eqb c dq then
            match string_body l' [] with
            | Some (s, r) => Some (JStr s, r)
            | None => None
            end
          else if Ascii.eqb c "t" then keyword "true" (JBool true) (c :: l')
          else if Ascii.eqb c "f" then keyword "false" (JBool false) (c :: l')
          else if Ascii.eqb c "n" then keyword "null" JNull (c :: l')
          else number (c :: l')
      end
  end
with members (fuel : nat) (l : list ascii) (acc : list (string * json)) {struct fuel}
  : option (json * list ascii) :=
  match fuel with
  | O => None
  | S n =>
      match skip_ws l with
      | c :: l' =>
          if Ascii.eqb c dq then
            match string_body l' [] with
            | Some (k, l2) =>
                match skip_ws l2 with
                | c3 :: l3 =>
                    if Ascii.eqb c3 ":" then
                      match value n l3 with
                      | Some (v, l4) =>
                          match skip_ws l4 with
                          | c5 :: l5 =>
                              if Ascii.eqb c5 "," then members n l5 ((k, v) :: acc)
                              else if Ascii.eqb c5 "}" then Some (JObj (rev ((k, v) :: acc)), l5)
                              else None
                          | [] => None
                          end
                      | None => None
                      end
                    else None
                | [] => None
                end
            | None => None
            end
          else None
      | [] => None
      end
  end
with elements (fuel : nat) (l : list ascii) (acc : list json) {struct fuel}
  : option (json * list ascii) :=
  match fuel with
  | O => None
  | S n =>
      match value n l with
      | Some (v, l1) =>
          match skip_ws l1 with
          | c :: l2 =>
              if Ascii.eqb c "," then elements n l2 (v :: acc)
              else if Ascii.eqb c "]" then Some (JArr (rev (v :: acc)), l2)
              else None
          | [] => None
          end
      | None => None
      end
  end.

Definition decode (s : string) : option json :=
  let l := list_ascii_of_string s in
  match value (S (length l)) l with
  | Some (v, rest) => match skip_ws rest with [] => Some v | _ => None end
  | None => None
  end.

(** Writes the double quotes of a JSON text as single quotes: [q s] turns
    each ['] of [s] into a double quote. *)
Fixpoint q (s : string) : string :=
  match s with
  | EmptyString => EmptyString
  | String c s' => String (if Ascii.eqb c "'" then dq else c) (q s')
  end.

End JsonText.

Example decode_object :
  JsonText.decode (JsonText.q "{'a': [1, -2.5, true], 'b': 'x\'y'}")
  = Some (JObj [("a", JArr [JNum 1; JNum (inject_Z (-2) + ((-5) # 10)); JBool true]);
                ("b", JStr (JsonText.q "x'y"))]).
Proof. vm_compute. reflexivity. Qed.

(** ** Metric aggregation in [main]

    [avg_facial_metrics = {metric: np.mean([data[metric] for data in facial_data])
                           for metric in facial_data[0].keys()}] *)
Definition aggregate_facial_metrics (facial_data : list dict) : res dict :=
  match facial_data with
  | [] => Error IndexError
  | first :: _ =>
      mapM (fun metric =>
              let* vs := mapM (fun data => dict_get data metric) facial_data in
              Ok (metric, np_mean vs))
           (dict_keys first)
  end.

(** ** Landmark feature extraction: [process_face_landmarks]

    The detector result [results.multi_face_landmarks] is [None] or a list of
    faces, each a list of landmarks. Drawing the mesh on the image only
    changes the image, but its check of the landmark indices can raise, and
    that check is modelled. *)
Record Landmark := mkLandmark { lx : Q; ly : Q; lz : Q }.

Definition FaceLandmarks := list Landmark.

(** [face_landmarks.landmark[i]]. *)
Definition landmark (face_landmarks : FaceLandmarks) (i : nat) : res Landmark :=
  match nth_error face_landmarks i with
  | Some p => Ok p
  | None => Error IndexError
  end.

(** [mp_drawing.draw_landmarks(image, face_landmarks, FACEMESH_TESSELATION, ...)]:
    before drawing, every connection [(i, j)] of the tessellation is checked
    to satisfy [0 <= i, j < len(landmark_list.landmark)], and [ValueError] is
    raised otherwise. The tessellation joins the points 0 .. 467 of the face
    mesh, so the check fails exactly when the face has fewer than 468
    landmarks. *)
Definition facemesh_num_points : nat := 468.

Definition draw_landmarks (face_landmarks : FaceLandmarks) : res unit :=
  if Nat.ltb (length face_landmarks) facemesh_num_points then Error ValueError
  else Ok tt.

Definition initial_facial_metrics : dict :=
  [("expression_diversity", 0); ("eye_movement", 0);
   ("mouth_movement", 0); ("head_position", 0)].

Section Extractor.

(** [np.sqrt]. *)
Variable np_sqrt : Q -> Q.

(** The body of [for face_landmarks in results.multi_face_landmarks]. *)
Definition face_step (facial_metrics : dict) (face_landmarks : FaceLandmarks) : res dict :=
  let* _ := draw_landmarks face_landmarks in
  let* le0 := landmark face_landmarks 145 in
  let* le1 := landmark face_landmarks 159 in
  let* re0 := landmark face_landmarks 374 in
  let* re1 := landmark face_landmarks 386 in
  let* ml0 := landmark face_landmarks 61 in
  let* ml1 := landmark face_landmarks 291 in
  let eye_distance := np_sqrt ((lx le0 - lx re0) * (lx le0 - lx re0) +
                               (ly le0 - ly re0) * (ly le0 - ly re0)) in
  let mouth_openness := Qabs (ly ml0 - ly ml1) in
  let facial_metrics := dict_set facial_metrics "eye_movement" (eye_distance * 100) in
  let facial_metrics := dict_set facial_metrics "mouth_movement" (mouth_openness * 100) in
  let* nose := landmark face_landmarks 0 in
  Ok (dict_set facial_metrics "head_position" ((lz nose + (1 # 2)) * 100)).

Fixpoint face_loop (facial_metrics : dict) (faces : list FaceLandmarks) : res dict :=
  match faces with
  | [] => Ok facial_metrics
  | f :: fs => let* m := face_step facial_metrics f in face_loop m fs
  end.

Definition process_face_landmarks (multi_face_landmarks : option (list FaceLandmarks))
  : res dict :=
  let facial_metrics := initial_facial_metrics in
  match multi_face_landmarks with
  | None | Some [] => Ok facial_metrics
  | Some faces => face_loop facial_metrics faces
  end.

End Extractor.

(** A concrete square root for concrete runs: the floor of the square root
    on the grid of the denominator, exact when [Qnum q * Qden q] is a square. *)
Definition Qsqrt_floor (q : Q) : Q := Z.sqrt (Qnum q * Zpos (Qden q)) # Qden q.

(** ** The progress tracker: [update_progress]

    Dates are day numbers ([date.toordinal()]), so [(today - d).days] is a
    difference of integers. *)
Record ProgressState := mkProgress {
  badges : list string;
  sessions_completed : Z;
  streak : Z;
  last_session_date : option Z }.

(** The session state initialised at the top of the script. *)
Definition init_progress : ProgressState := mkProgress [] 0 0 None.

Definition star_performer := "⭐ Star Performer".
Definition dedicated_learner := "🏆 Dedicated Learner".
Definition three_day_streak := "🔥 3-Day Streak".
Definition expression_master := "😊 Expression Master".
Definition voice_pro := "🎤 Voice Pro".

(** The streak update at the head of [update_progress]. *)
Definition update_streak (today : Z) (s : ProgressState) : ProgressState :=
  let new_day := match last_session_date s with
                 | None => true
                 | Some d => negb (Z.eqb d today)
                 end in
  if new_day then
    let streak' := match last_session_date s with
                   | Some d =>
                       let days_diff := (today - d)%Z in
                       if Z.eqb days_diff 1 then (streak s + 1)%Z
                       else if Z.gtb days_diff 1 then 1%Z
                       else streak s
                   | None => 1%Z
                   end in
    mkProgress (badges s) (sessions_completed s + 1) streak' (Some today)
  else s.

Definition has_badge (s : ProgressState) (b : string) : bool :=
  existsb (String.eqb b) (badges s).

(** [if cond: if new_badge not in badges: new_badges.append; badges.append]. *)
Definition award (cond : bool) (new_badge : string)
    (acc : ProgressState * list string) : ProgressState * list string :=
  let '(s, new_badges) := acc in
  if cond && negb (has_badge s new_badge) then
    (mkProgress (badges s ++ [new_badge])%list (sessions_completed s) (streak s)
                (last_session_date s),
     (new_badges ++ [new_badge])%list)
  else acc.

(** [update_progress(feedback)] on the date [today]: the new state and the
    returned list [new_badges]. Only the three scores of the feedback are
    read. *)
Definition update_progress (today : Z) (feedback : FeedbackReport) (s : ProgressState)
  : ProgressState * list string :=
  let s := update_streak today s in
  let acc := (s, []) in
  let acc := award (Qgtb (overall_score feedback) 85) star_performer acc in
  let acc := award (Z.eqb (sessions_completed (fst acc)) 5) dedicated_learner acc in
  let acc := award (Z.geb (streak (fst acc)) 3) three_day_streak acc in
  let acc := award (Qgtb (expression_score feedback) 80) expression_master acc in
  let acc := award (Qgtb (voice_score feedback) 80) voice_pro acc in
  acc.

(** The order in which [update_progress] evaluates the badge rules. *)
Definition badge_order : list string :=
  [star_performer; dedicated_learner; three_day_streak; expression_master; voice_pro].

(** The unlock table as the spec states it, on the state after the streak
    update. *)
Definition badge_condition (feedback : FeedbackReport) (s : ProgressState) (b : string)
  : bool :=
  if String.eqb b star_performer then Qgtb (overall_score feedback) 85
  else if String.eqb b dedicated_learner then Z.eqb (sessions_completed s) 5
  else if String.eqb b three_day_streak then Z.geb (streak s) 3
  else if String.eqb b expression_master then Qgtb (expression_score feedback) 80
  else if String.eqb b voice_pro then Qgtb (voice_score feedback) 80
  else false.

Fixpoint award_all (cs : list (bool * string)) (acc : ProgressState * list string)
  : ProgressState * list string :=
  match cs with
  | [] => acc
  | (c, b) :: cs' => award_all cs' (award c b acc)
  end.

(** ** [update_progress] on the feedback dict it is given

    [get_gemini_feedback] returns a dict, which [main] passes to
    [update_progress]. The badge rules read [feedback["overall_score"]],
    [feedback["expression_score"]] and [feedback["voice_score"]]; a read or a
    comparison may raise, and the changes already made to the session state
    stay. *)

(** Python's [x > n] for a value [x] read from decoded JSON and a number
    [n]: numbers and booleans compare, anything else raises [TypeError]. *)
Definition py_gt (x : json) (n : Q) : res bool :=
  match x with
  | JNum q => Ok (Qgtb q n)
  | JBool b => Ok (Qgtb (if b then 1 else 0) n)
  | _ => Error TypeError
  end.

(** [feedback[key] > n]. *)
Definition score_above (feedback : json) (key : string) (n : Q) : res bool :=
  let* x := py_getkey feedback key in py_gt x n.

(** One badge rule, on the session state and the result so far. *)
Definition award_step (test : ProgressState -> res bool) (new_badge : string)
    (st : ProgressState * res (list string)) : ProgressState * res (list string) :=
  match st with
  | (s, Ok new_badges) =>
      match test s with
      | Ok c => let '(s', nb') := award c new_badge (s, new_badges) in (s', Ok nb')
      | Error e => (s, Error e)
      end
  | (s, Error e) => (s, Error e)
  end.

(** [update_progress(feedback)] on the date [today] for a feedback dict: the
    session state after the call (also when it raises) and the returned
    [new_badges] or the exception. *)
Definition update_progress_json (today : Z) (feedback : json) (s : ProgressState)
  : ProgressState * res (list string) :=
  let st := (update_streak today s, Ok []) in
  let st := award_step (fun _ => score_above feedback "overall_score" 85)
                       star_performer st in
  let st := award_step (fun s => Ok (Z.eqb (sessions_completed s) 5))
                       dedicated_learner st in
  let st := award_step (fun s => Ok (Z.geb (streak s) 3)) three_day_streak st in
  let st := award_step (fun _ => score_above feedback "expression_score" 80)
                       expression_master st in
  let st := award_step (fun _ => score_above feedback "voice_score" 80) voice_pro st in
  st.

(** States reachable from the initial session state by calls of
    [update_progress] on any dates and any feedback dicts. A call that
    raises leaves the session state as it was at the exception, and that
    state is kept for the next session. *)
Inductive reachable : ProgressState -> Prop :=
| reachable_init : reachable init_progress
| reachable_step s today feedback :
    reachable s -> reachable (fst (update_progress_json today feedback s)).

(** ** Audio features: [analyze_audio]

    [librosa.load] yields the samples [y] and the rate [sr]. A numpy float
    that may be NaN is an [option Q], [None] standing for NaN: the mean of
    an empty array and the standard deviation of an empty array are NaN,
    and NaN stays NaN under scaling. *)

(** [np.sum(y**2) / len(y)]. *)
Definition energy_of (y : list Q) : option Q :=
  match y with
  | [] => None
  | _ => Some (sum (map (fun v => v * v) y) / inject_Z (Z.of_nat (length y)))
  end.

(** [x * c] on a float that may be NaN. *)
Definition fscale (x : option Q) (c : Q) : option Q := option_map (fun q => q * c) x.

(** Python's builtin [min(a, b)]: the first argument unless the second is
    strictly smaller; a NaN is never smaller. *)
Definition py_min (a : Q) (b : option Q) : Q :=
  match b with
  | Some x => if Qltb x a then x else a
  | None => a
  end.

(** [sum(zero_crossings)] over an array of booleans. *)
Definition count_true (l : list bool) : Z := Z.of_nat (length (filter (fun b => b) l)).

Section Audio.

(** [np.sqrt]. *)
Variable np_sqrt : Q -> Q.

(** The entries of the [pitches] matrix of [librosa.piptrack(y=y, sr=sr)],
    or the exception the call raises. *)
Variable piptrack : list Q -> Z -> res (list Q).

(** [librosa.zero_crossings(y)], or the exception the call raises (an
    empty signal makes it raise). *)
Variable zero_crossings : list Q -> res (list bool).

(** [np.std] (population standard deviation). *)
Definition np_std (xs : list Q) : option Q :=
  match xs with
  | [] => None
  | _ => let m := np_mean xs in
         Some (np_sqrt (np_mean (map (fun x => (x - m) * (x - m)) xs)))
  end.

(** [analyze_audio(audio_file_path)] for the decoded samples [y] at rate
    [sr]; [uniform_draw] is the value of [random.uniform(60, 95)]. The
    numpy arithmetic does not raise (an empty array gives NaN); the two
    librosa calls may. *)
Definition analyze_audio (y : list Q) (sr : Z) (uniform_draw : Q) : res dict :=
  let energy := energy_of y in
  let* pitches := piptrack y sr in
  let pitch_variation := np_std (filter (fun p => Qltb 0 p) pitches) in
  let* zero_crossings := zero_crossings y in
  let speech_rate := count_true zero_crossings in
  Ok [("volume", py_min 100 (fscale energy 1000));
      ("pitch_variation", py_min 100 (fscale pitch_variation 10));
      ("speech_rate", py_min 100 (Some (inject_Z speech_rate / 1000)));
      ("clarity", uniform_draw)].

End Audio.

(** ** A practice session in [main]

    The branch run when "Start Recording" is pressed: the recording loop,
    the averaging, the audio analysis, the feedback, the progress update and
    the history entry. The display of the frames, the placeholders, the audio
    thread and [st.rerun()] do not touch this state and are not modelled. *)

(** An entry of [st.session_state.history]. *)
Record SessionRecord := mkSession {
  session_date : string;
  session_duration : Z;
  session_prompt : string;
  session_facial : dict;
  session_audio : dict;
  session_feedback : json;
  session_new_badges : list string }.

(** One pass of the [while recording] loop: the elapsed time read at its
    head, and the outcome of [cap.read()]: [None] when [ret] is false, else
    the detector result for the frame. *)
Definition loop_tick : Type := (Q * option (option (list FaceLandmarks)))%type.

Section Main.

Variable np_sqrt : Q -> Q.
Variable json_loads : string -> option json.
Variable post : GeminiRequest -> http_outcome.
Variable piptrack : list Q -> Z -> res (list Q).
Variable zero_crossings : list Q -> res (list bool).

(** The recording loop over the passes [ticks] it makes: [facial_data].
    It stops when the duration has elapsed, when the stop button was
    pressed, or when a frame cannot be read. *)
Fixpoint record_loop (practice_duration : Z) (stop_button : bool) (ticks : list loop_tick)
  : res (list dict) :=
  match ticks with
  | [] => Ok []
  | (elapsed_time, frame) :: ticks' =>
      if Qle_bool (inject_Z practice_duration) elapsed_time || stop_button then Ok []
      else match frame with
           | None => Ok []
           | Some detection =>
               let* current_facial_metrics := process_face_landmarks np_sqrt detection in
               let* rest := record_loop practice_duration stop_button ticks' in
               Ok (current_facial_metrics :: rest)
           end
  end.

(** The session branch of [main], on the progress state [s] and the history:
    the final progress state and history, the requests sent, and whether the
    branch ends normally or raises. The engine raises only before it sends a
    request. *)
Definition practice_session (today : Z) (date api_key prompt : string)
    (practice_duration : Z) (stop_button : bool) (ticks : list loop_tick)
    (y : list Q) (sr : Z) (uniform_draw : Q)
    (s : ProgressState) (history : list SessionRecord)
  : ProgressState * list SessionRecord * list GeminiRequest * res unit :=
  match record_loop practice_duration stop_button ticks with
  | Error e => (s, history, [], Error e)
  | Ok facial_data =>
      match aggregate_facial_metrics facial_data with
      | Error e => (s, history, [], Error e)
      | Ok avg_facial_metrics =>
          match analyze_audio np_sqrt piptrack zero_crossings y sr uniform_draw with
          | Error e => (s, history, [], Error e)
          | Ok audio_metrics =>
              match get_gemini_feedback json_loads post api_key avg_facial_metrics
                      audio_metrics prompt with
              | Error e => (s, history, [], Error e)
              | Ok (sent, feedback) =>
                  let '(s', result) := update_progress_json today feedback s in
                  match result with
                  | Error e => (s', history, sent, Error e)
                  | Ok new_badges =>
                      (s', (history ++ [mkSession date practice_duration prompt
                                                  avg_facial_metrics audio_metrics feedback
                                                  new_badges])%list,
                       sent, Ok tt)
                  end
              end
          end
      end
  end.

End Main.

Definition progress_shape (s0 : ProgressState) (st : ProgressState * res (list string)) : Prop :=
  exists x,
    badges (fst st) = (badges s0 ++ x)%list /\
    sessions_completed (fst st) = sessions_completed s0 /\
    streak (fst st) = streak s0 /\
    last_session_date (fst st) = last_session_date s0 /\
    (forall nb, snd st = Ok nb -> nb = x).

(** The state [s] after some badge rules of a call of [update_progress],
    from the state [s1] after its streak update. *)
Definition badge_step_inv (s1 s : ProgressState) : Prop :=
  sessions_completed s = sessions_completed s1 /\ streak s = streak s1 /\
  last_session_date s = last_session_date s1 /\ NoDup (badges s) /\
  exists x, badges s = (badges s1 ++ x)%list /\
    forall b, In b x -> In b badge_order /\
      (b = dedicated_learner -> sessions_completed s1 = 5%Z) /\
      (b = three_day_streak -> (3 <= streak s1)%Z).

(** The facial dict without [head_position]. *)
Definition facial_dict_no_head (f : FacialMetrics) : dict :=
  [("expression_diversity", expression_diversity f);
   ("eye_movement", eye_movement f);
   ("mouth_movement", mouth_movement f)].

(** ** Proof tools *)

(** Two different badge names. *)
Ltac badge_neq := intros E; unfold star_performer, dedicated_learner, three_day_streak,
  expression_master, voice_pro in E; discriminate E.


(** Case analysis on every [res] read and every test of a run of the
    fallback heuristic, given as hypothesis [H : _ = Ok r]. *)
Ltac res_cases H :=
  repeat (unfold bind in H;
          match type of H with
          | context [match ?m with Ok _ => _ | Error _ => _ end] =>
              let E := fresh "E" in destruct m eqn:E; [|discriminate H]
          end);
  repeat match type of H with
         | context [if ?b then _ else _] =>
             lazymatch type of b with
             | bool => let E := fresh "B" in destruct b eqn:E
             end
         end;
  simpl in H; injection H as <-.

Lemma Qgtb_false x y : Qgtb x y = false <-> (x <= y)%Q.
Proof.
  unfold Qgtb. rewrite <- Qle_bool_iff. destruct (Qle_bool x y); simpl; split; congruence.
Qed.

Lemma Qltb_false x y : Qltb x y = false <-> (y <= x)%Q.
Proof.
  unfold Qltb. rewrite <- Qle_bool_iff. destruct (Qle_bool y x); simpl; split; congruence.
Qed.

Lemma Qgtb_true x y : Qgtb x y = true <-> (y < x)%Q.
Proof.
  unfold Qgtb. split; intro H.
  - apply Qnot_le_lt. intro Hle. apply Qle_bool_iff in Hle. rewrite Hle in H. discriminate.
  - destruct (Qle_bool x y) eqn:E; [|reflexivity].
    apply Qle_bool_iff in E. exfalso. apply (Qlt_not_le _ _ H E).
Qed.

Lemma Qltb_true x y : Qltb x y = true <-> (x < y)%Q.
Proof. unfold Qltb. apply (Qgtb_true y x). Qed.

(** The three fields the streak update writes are kept by badge awards. *)
Lemma award_fields c b acc :
  sessions_completed (fst (award c b acc)) = sessions_completed (fst acc) /\
  streak (fst (award c b acc)) = streak (fst acc) /\
  last_session_date (fst (award c b acc)) = last_session_date (fst acc).
Proof.
  destruct acc as [s nb]. unfold award.
  destruct (c && negb (has_badge s b)); simpl; auto.
Qed.

Lemma update_progress_fields today feedback s :
  let s' := fst (update_progress today feedback s) in
  sessions_completed s' = sessions_completed (update_streak today s) /\
  streak s' = streak (update_streak today s) /\
  last_session_date s' = last_session_date (update_streak today s).
Proof.
  unfold update_progress. cbv zeta.
  repeat split;
    repeat (match goal with
            | |- context [sessions_completed (fst (award ?c ?b ?acc))] =>
                rewrite (proj1 (award_fields c b acc))
            | |- context [streak (fst (award ?c ?b ?acc))] =>
                rewrite (proj1 (proj2 (award_fields c b acc)))
            | |- context [last_session_date (fst (award ?c ?b ?acc))] =>
                rewrite (proj2 (proj2 (award_fields c b acc)))
            end); reflexivity.
Qed.

(** The comparisons decided by a run, as facts on [Q]. *)
Ltac q_facts :=
  repeat match goal with
         | B : Qgtb _ _ = true |- _ => apply Qgtb_true in B
         | B : Qgtb _ _ = false |- _ => apply Qgtb_false in B
         | B : Qltb _ _ = true |- _ => apply Qltb_true in B
         | B : Qltb _ _ = false |- _ => apply Qltb_false in B
         end.

(** Case analysis on the tests of the goal. *)
Ltac goal_cases :=
  repeat match goal with
         | |- context [if ?b then _ else _] =>
             lazymatch type of b with
             | bool => let E := fresh "B" in destruct b eqn:E
             end
         end.

Lemma In_existsb_string x l : In x l <-> existsb (String.eqb x) l = true.
Proof.
  rewrite existsb_exists. split.
  - intros Hx. exists x. split; [exact Hx | apply String.eqb_refl].
  - intros (y & Hy & E). apply String.eqb_eq in E. subst. exact Hy.
Qed.

(** ** Theorems *)

(** C9: the aggregation in [main] applied to an empty frame sequence raises
    (the [facial_data[0]] read fails with [IndexError]); it never returns a
    metrics dict. *)
Theorem aggregate_empty_raises :
  aggregate_facial_metrics [] = Error IndexError /\
  forall d, aggregate_facial_metrics [] <> Ok d.
Proof. split; [reflexivity | intros d H; discriminate H]. Qed.

(** C4: the streak state machine of [update_progress]. When the last session
    date is absent or differs from today, [sessions_completed] grows by one
    and the date becomes today; absent date: streak 1; a gap of one day:
    streak + 1; a gap above one day: streak 1; a second session the same day
    leaves streak, sessions and date unchanged. *)
Theorem update_progress_streak today feedback s :
  let s' := fst (update_progress today feedback s) in
  (last_session_date s <> Some today ->
     sessions_completed s' = (sessions_completed s + 1)%Z /\
     last_session_date s' = Some today) /\
  (last_session_date s = None -> streak s' = 1%Z) /\
  (forall d, last_session_date s = Some d -> (today - d = 1)%Z ->
     streak s' = (streak s + 1)%Z) /\
  (forall d, last_session_date s = Some d -> (today - d > 1)%Z -> streak s' = 1%Z) /\
  (last_session_date s = Some today ->
     streak s' = streak s /\ sessions_completed s' = sessions_completed s /\
     last_session_date s' = last_session_date s).
Proof.
  cbv zeta. destruct (update_progress_fields today feedback s) as (Hs & Ht & Hl).
  rewrite Hs, Ht, Hl. unfold update_streak.
  destruct s as [b n k [d|]]; simpl; repeat split; intros; try congruence.
  - destruct (Z.eqb_spec d today); subst; simpl; [congruence | reflexivity].
  - destruct (Z.eqb_spec d today); subst; simpl; [congruence | reflexivity].
  - inversion H; subst. destruct (Z.eqb_spec d0 today); [lia|]. simpl.
    rewrite H0. reflexivity.
  - inversion H; subst. destruct (Z.eqb_spec d0 today); [lia|]. simpl.
    destruct (Z.eqb_spec (today - d0) 1); [lia|].
    replace (Z.gtb (today - d0) 1) with true by (symmetry; apply Z.gtb_lt; lia).
    reflexivity.
  - inversion H; subst. rewrite Z.eqb_refl. reflexivity.
  - inversion H; subst. rewrite Z.eqb_refl. reflexivity.
  - inversion H; subst. rewrite Z.eqb_refl. reflexivity.
Qed.

(** C10: every report of the fallback heuristic has as many tips as areas
    to improve. *)
Theorem fallback_tips_match_areas facial_metrics audio_metrics r
  (H : generate_feedback_fallback facial_metrics audio_metrics = Ok r) :
  length (tips r) = length (areas_to_improve r).
Proof.
  unfold generate_feedback_fallback in H. res_cases H; reflexivity.
Qed.

Lemma fallback_tips_match_areas_witness :
  exists r, generate_feedback_fallback (facial_dict (mkFacial 75 80 40 55))
                                       (audio_dict (mkAudio 50 90 95 85)) = Ok r /\
            length (tips r) = length (areas_to_improve r).
Proof.
  eexists. split; [reflexivity|].
  apply (fallback_tips_match_areas (facial_dict (mkFacial 75 80 40 55))
                                   (audio_dict (mkAudio 50 90 95 85))).
  reflexivity.
Defined.

(** C3: every report of the fallback heuristic has non-empty strengths and
    areas to improve; when no strength rule fires the strengths are exactly
    the generic "Consistent delivery", and when no improvement rule fires the
    areas are exactly "Fine-tuning your natural style" with the generic tip. *)
Theorem fallback_lists_nonempty facial_metrics audio_metrics r
  (H : generate_feedback_fallback facial_metrics audio_metrics = Ok r) :
  strengths r <> [] /\ areas_to_improve r <> [] /\
  (forall em pv cl,
     dict_get facial_metrics "eye_movement" = Ok em ->
     dict_get audio_metrics "pitch_variation" = Ok pv ->
     dict_get audio_metrics "clarity" = Ok cl ->
     (em <= 70)%Q -> (pv <= 70)%Q -> (cl <= 80)%Q ->
     strengths r = ["Consistent delivery"]) /\
  (forall mm sr,
     dict_get facial_metrics "mouth_movement" = Ok mm ->
     dict_get audio_metrics "speech_rate" = Ok sr ->
     (60 <= mm)%Q -> (50 <= sr)%Q -> (sr <= 85)%Q ->
     areas_to_improve r = ["Fine-tuning your natural style"] /\ tips r = [tip_generic]).
Proof.
  unfold generate_feedback_fallback in H. res_cases H; q_facts;
    repeat split; try discriminate; intros;
    repeat match goal with
           | G : dict_get ?d ?k = Ok ?x, E : dict_get ?d ?k = Ok ?y |- _ =>
               lazymatch x with y => fail | _ => rewrite E in G end
           end;
    repeat match goal with
           | G : Ok _ = Ok _ |- _ => injection G; clear G; intro
           end;
    subst;
    first [reflexivity | exfalso; lra].
Qed.

Lemma fallback_lists_nonempty_witness :
  exists r, generate_feedback_fallback (facial_dict (mkFacial 1 1 1 1))
                                       (audio_dict (mkAudio 1 1 1 1)) = Ok r /\
            strengths r <> [] /\ areas_to_improve r <> [].
Proof.
  eexists. split; [reflexivity|].
  destruct (fallback_lists_nonempty (facial_dict (mkFacial 1 1 1 1))
                                    (audio_dict (mkAudio 1 1 1 1)) _ eq_refl)
    as (H1 & H2 & _).
  split; [exact H1 | exact H2].
Defined.

Lemma fallback_record_scores f a :
  exists r,
    generate_feedback_fallback (facial_dict f) (audio_dict a) = Ok r /\
    expression_score r = np_mean [expression_diversity f; eye_movement f; mouth_movement f] /\
    voice_score r = np_mean [volume a; pitch_variation a; speech_rate a; clarity a] /\
    overall_score r = ((expression_score r + voice_score r) / 2)%Q.
Proof.
  eexists. split; [reflexivity|]. simpl. goal_cases; simpl; auto.
Qed.

(** [get_gemini_feedback] on metrics dicts of the source's shape, in closed
    form: [r] is the fallback report. *)
Lemma get_gemini_feedback_records json_loads post api_key prompt f a r
  (Hr : generate_feedback_fallback (facial_dict f) (audio_dict a) = Ok r) :
  get_gemini_feedback json_loads post api_key (facial_dict f) (audio_dict a) prompt =
  if String.eqb api_key "" then Ok ([], report_json r)
  else Ok ([gemini_request api_key prompt f a],
           match gemini_try json_loads (post (gemini_request api_key prompt f a)) with
           | Ok (ReturnRemote feedback) => feedback
           | _ => report_json r
           end).
Proof.
  unfold get_gemini_feedback. rewrite Hr.
  destruct (String.eqb api_key ""); [reflexivity|].
  simpl. fold (gemini_request api_key prompt f a).
  destruct (gemini_try json_loads (post (gemini_request api_key prompt f a)))
    as [[fb|]|e]; simpl; rewrite ?Hr; reflexivity.
Qed.

(** C1 (amended): for every facial and audio metrics dict of the shape the
    source builds, the fallback report has expression_score the mean of
    expression_diversity, eye_movement and mouth_movement, voice_score the
    mean of the four audio metrics and overall_score their mean; the remote
    request embeds the same three scores. Audio metrics are a required
    input: without the audio keys the engine raises [KeyError] instead of
    scoring the face alone. *)
Theorem feedback_scores json_loads post api_key prompt f a :
  exists r sent v,
    generate_feedback_fallback (facial_dict f) (audio_dict a) = Ok r /\
    (expression_score r ==
       (expression_diversity f + eye_movement f + mouth_movement f) / 3)%Q /\
    (voice_score r ==
       (volume a + pitch_variation a + speech_rate a + clarity a) / 4)%Q /\
    overall_score r = ((expression_score r + voice_score r) / 2)%Q /\
    get_gemini_feedback json_loads post api_key (facial_dict f) (audio_dict a) prompt
      = Ok (sent, v) /\
    Forall (fun req => gr_expression_score req = expression_score r /\
                       gr_voice_score req = voice_score r /\
                       gr_overall_score req = overall_score r) sent /\
    generate_feedback_fallback (facial_dict f) [] = Error (KeyError "volume") /\
    get_gemini_feedback json_loads post api_key (facial_dict f) [] prompt
      = Error (KeyError "volume").
Proof.
  destruct (fallback_record_scores f a) as (r & Hr & He & Hv & Ho).
  exists r.
  rewrite (get_gemini_feedback_records json_loads post api_key prompt f a r Hr).
  unfold get_gemini_feedback.
  destruct (String.eqb api_key "").
  - exists [], (report_json r).
    split; [exact Hr|].
    split; [rewrite He; unfold np_mean, sum; simpl; field|].
    split; [rewrite Hv; unfold np_mean, sum; simpl; field|].
    split; [exact Ho|]. split; [reflexivity|].
    split; [repeat constructor|]. split; reflexivity.
  - eexists [gemini_request api_key prompt f a], _.
    split; [exact Hr|].
    split; [rewrite He; unfold np_mean, sum; simpl; field|].
    split; [rewrite Hv; unfold np_mean, sum; simpl; field|].
    split; [exact Ho|]. split; [reflexivity|].
    split; [constructor; [simpl; rewrite Ho, He, Hv; repeat split | constructor]|].
    split; reflexivity.
Qed.

(** The rules a run of the fallback heuristic applied, read from its report. *)
Lemma fallback_rules facial_metrics audio_metrics r
  (H : generate_feedback_fallback facial_metrics audio_metrics = Ok r) :
  exists em pv cl mm sr,
    dict_get facial_metrics "eye_movement" = Ok em /\
    dict_get audio_metrics "pitch_variation" = Ok pv /\
    dict_get audio_metrics "clarity" = Ok cl /\
    dict_get facial_metrics "mouth_movement" = Ok mm /\
    dict_get audio_metrics "speech_rate" = Ok sr /\
    (In "Good eye expressiveness" (strengths r) <-> (70 < em)%Q) /\
    (In "Excellent vocal variety" (strengths r) <-> (70 < pv)%Q) /\
    (In "Clear pronunciation" (strengths r) <-> (80 < cl)%Q) /\
    (In "Facial expressions" (areas_to_improve r) <-> (mm < 60)%Q) /\
    (In tip_mouth (tips r) <-> (mm < 60)%Q) /\
    (In tip_faster (tips r) <-> (sr < 50)%Q) /\
    (In tip_slower (tips r) <-> (85 < sr)%Q) /\
    (In "Speech pace" (areas_to_improve r) <-> (sr < 50)%Q \/ (85 < sr)%Q).
Proof.
  unfold generate_feedback_fallback in H. res_cases H; q_facts;
    do 5 eexists; (do 5 (split; [reflexivity|]));
    repeat rewrite In_existsb_string; simpl;
    repeat split; intros; try reflexivity; try discriminate;
    try match goal with
        | G : _ \/ _ |- _ => destruct G
        end;
    try (exfalso; lra);
    first [left; lra | right; lra | lra].
Qed.

(** C8 (amended): the fallback heuristic's threshold table, and the spec's
    scenario with audio metrics present. *)
Theorem fallback_threshold_table f a :
  exists r,
    generate_feedback_fallback (facial_dict f) (audio_dict a) = Ok r /\
    (In "Good eye expressiveness" (strengths r) <-> (70 < eye_movement f)%Q) /\
    (In "Excellent vocal variety" (strengths r) <-> (70 < pitch_variation a)%Q) /\
    (In "Clear pronunciation" (strengths r) <-> (80 < clarity a)%Q) /\
    (In "Facial expressions" (areas_to_improve r) <-> (mouth_movement f < 60)%Q) /\
    (In tip_mouth (tips r) <-> (mouth_movement f < 60)%Q) /\
    (In tip_faster (tips r) <-> (speech_rate a < 50)%Q) /\
    (In tip_slower (tips r) <-> (85 < speech_rate a)%Q) /\
    (In "Speech pace" (areas_to_improve r) <->
       (speech_rate a < 50)%Q \/ (85 < speech_rate a)%Q) /\
    (f = mkFacial 75 80 40 55 ->
       (expression_score r == 65)%Q /\
       (overall_score r == (65 + voice_score r) / 2)%Q /\
       In "Good eye expressiveness" (strengths r) /\
       In "Facial expressions" (areas_to_improve r) /\ In tip_mouth (tips r)).
Proof.
  destruct (fallback_record_scores f a) as (r & Hr & He & Hv & Ho).
  exists r. split; [exact Hr|].
  destruct (fallback_rules _ _ _ Hr)
    as (em & pv & cl & mm & sr & Em & Ep & Ec & Emm & Es & R1 & R2 & R3 & R4 & R5 & R6 & R7 & R8).
  simpl in Em, Ep, Ec, Emm, Es.
  injection Em as <-. injection Ep as <-. injection Ec as <-.
  injection Emm as <-. injection Es as <-.
  do 8 (split; [assumption|]).
  intros ->. simpl in *.
  split; [rewrite He; unfold np_mean, sum; simpl; field|].
  split; [rewrite Ho, He; unfold np_mean, sum; simpl; field|].
  split; [apply R1; lra|].
  split; [apply R4; lra | apply R5; lra].
Qed.

Lemma mapM_get_facial k (sel : FacialMetrics -> Q) frames
  (Hk : forall g, dict_get (facial_dict g) k = Ok (sel g)) :
  mapM (fun d => dict_get d k) (map facial_dict frames) = Ok (map sel frames).
Proof.
  induction frames as [|g frames IH]; [reflexivity|].
  cbn [map mapM]. rewrite Hk. cbn [bind]. rewrite IH. reflexivity.
Qed.

Lemma aggregate_nonempty frames first rest (H : frames = first :: rest) :
  aggregate_facial_metrics frames =
  mapM (fun metric =>
          let* vs := mapM (fun data => dict_get data metric) frames in
          Ok (metric, np_mean vs))
       (dict_keys first).
Proof. subst. reflexivity. Qed.

(** C6 (amended): for a non-empty sequence of per-frame metrics dicts, the
    aggregation returns, field by field, the plain arithmetic mean over the
    frames; no value is clamped before or after averaging. *)
Theorem aggregate_plain_means f fs :
  aggregate_facial_metrics (map facial_dict (f :: fs)) =
  Ok (facial_dict (mkFacial (np_mean (map expression_diversity (f :: fs)))
                            (np_mean (map eye_movement (f :: fs)))
                            (np_mean (map mouth_movement (f :: fs)))
                            (np_mean (map head_position (f :: fs))))).
Proof.
  rewrite (aggregate_nonempty (map facial_dict (f :: fs)) (facial_dict f)
             (map facial_dict fs) eq_refl).
  assert (Hm : forall k sel, (forall g, dict_get (facial_dict g) k = Ok (sel g)) ->
            mapM (fun d => dict_get d k) (map facial_dict (f :: fs)) = Ok (map sel (f :: fs)))
    by (intros; apply mapM_get_facial; assumption).
  remember (map facial_dict (f :: fs)) as frames eqn:Hfr.
  simpl.
  rewrite (Hm "expression_diversity" expression_diversity) by reflexivity.
  rewrite (Hm "eye_movement" eye_movement) by reflexivity.
  rewrite (Hm "mouth_movement" mouth_movement) by reflexivity.
  rewrite (Hm "head_position" head_position) by reflexivity.
  reflexivity.
Qed.

(** C6 counterexample: an all-zero frame (what the extractor emits while no
    face is detected) aggregates to all-zero metrics, below the claimed floor
    of 1.0. *)
Lemma aggregate_all_zero_below_floor :
  aggregate_facial_metrics [facial_dict (mkFacial 0 0 0 0)]
  = Ok (facial_dict (mkFacial 0 0 0 0)) /\ ~ (1 <= 0)%Q.
Proof. split; [reflexivity | intro H; apply Qle_bool_iff in H; discriminate H]. Qed.

Lemma landmark_nth face_landmarks i (H : (i < length face_landmarks)%nat) :
  landmark face_landmarks i = Ok (nth i face_landmarks (mkLandmark 0 0 0)).
Proof.
  unfold landmark. rewrite (nth_error_nth' _ (mkLandmark 0 0 0) H). reflexivity.
Qed.

Lemma draw_landmarks_ok face_landmarks (H : (468 <= length face_landmarks)%nat) :
  draw_landmarks face_landmarks = Ok tt.
Proof.
  unfold draw_landmarks, facemesh_num_points.
  destruct (Nat.ltb_spec (length face_landmarks) 468); [lia | reflexivity].
Qed.

Lemma draw_landmarks_short face_landmarks (H : (length face_landmarks < 468)%nat) :
  draw_landmarks face_landmarks = Error ValueError.
Proof.
  unfold draw_landmarks, facemesh_num_points.
  destruct (Nat.ltb_spec (length face_landmarks) 468); [reflexivity | lia].
Qed.




(** C1 counterexample: the source has no audio-absent path. With the audio
    metrics missing, the engine (no credential configured) raises
    [KeyError 'volume'] rather than reporting overall_score =
    expression_score. *)
Lemma feedback_without_audio_raises :
  get_gemini_feedback JsonText.decode (fun _ => TransportFailure) ""
    (facial_dict (mkFacial 75 80 40 55)) [] "Introduce yourself"
  = Error (KeyError "volume").
Proof. reflexivity. Qed.

(** C8 counterexample: the spec's scenario without audio raises
    [KeyError 'volume'] in the fallback heuristic; with audio present the
    overall score mixes in the voice score (here 65/2, not 65). *)
Lemma scenario_without_audio_raises :
  generate_feedback_fallback (facial_dict (mkFacial 75 80 40 55)) [] = Error (KeyError "volume") /\
  exists r,
    generate_feedback_fallback (facial_dict (mkFacial 75 80 40 55))
                               (audio_dict (mkAudio 0 0 0 0)) = Ok r /\
    (overall_score r == 65 # 2)%Q /\ ~ (overall_score r == 65)%Q.
Proof.
  split; [reflexivity|].
  destruct (fallback_record_scores (mkFacial 75 80 40 55) (mkAudio 0 0 0 0))
    as (r & Hr & He & Hv & Ho).
  exists r. split; [exact Hr|].
  rewrite Ho, He, Hv. split; [reflexivity | discriminate].
Qed.

(** ** Badge awarding *)

Lemma update_progress_award_all today feedback s :
  update_progress today feedback s =
  award_all (map (fun b => (badge_condition feedback (update_streak today s) b, b)) badge_order)
            (update_streak today s, []).
Proof.
  unfold update_progress. cbv zeta.
  repeat match goal with
         | |- context [sessions_completed (fst (award ?c ?b ?acc))] =>
             rewrite (proj1 (award_fields c b acc))
         | |- context [streak (fst (award ?c ?b ?acc))] =>
             rewrite (proj1 (proj2 (award_fields c b acc)))
         end.
  reflexivity.
Qed.

Lemma has_badge_In s b : has_badge s b = true <-> In b (badges s).
Proof. unfold has_badge. rewrite In_existsb_string. reflexivity. Qed.

Lemma award_all_spec cs s nb (Hnd : NoDup (map snd cs)) :
  award_all cs (s, nb) =
  let added := map snd (filter (fun cb => fst cb && negb (has_badge s (snd cb))) cs) in
  (mkProgress (badges s ++ added)%list (sessions_completed s) (streak s) (last_session_date s),
   (nb ++ added)%list).
Proof.
  revert s nb Hnd. induction cs as [|[c b] cs IH]; intros s nb Hnd; simpl.
  - rewrite !app_nil_r. destruct s; reflexivity.
  - inversion Hnd as [|? ? Hb Hnd']; subst.
    destruct (c && negb (has_badge s b)) eqn:E; simpl.
    + rewrite IH by exact Hnd'. simpl.
      assert (Hf : filter (fun cb => fst cb && negb (has_badge
                     {| badges := (badges s ++ [b])%list; sessions_completed := sessions_completed s;
                        streak := streak s; last_session_date := last_session_date s |}
                     (snd cb))) cs
                   = filter (fun cb => fst cb && negb (has_badge s (snd cb))) cs).
      { apply filter_ext_in. intros [c' b'] Hin. simpl. f_equal. f_equal.
        unfold has_badge. simpl. rewrite existsb_app. simpl.
        destruct (String.eqb_spec b' b) as [->|]; [|rewrite orb_false_r; reflexivity].
        exfalso. apply Hb. apply (in_map snd) in Hin. exact Hin. }
      rewrite Hf, <- !app_assoc. reflexivity.
    + apply IH. exact Hnd'.
Qed.

Lemma filter_pairs (g h : string -> bool) l :
  map snd (filter (fun cb => fst cb && negb (h (snd cb))) (map (fun b => (g b, b)) l))
  = filter (fun b => g b && negb (h b)) l.
Proof.
  induction l as [|b l IH]; simpl; [reflexivity|].
  destruct (g b && negb (h b)); simpl; rewrite IH; reflexivity.
Qed.

Lemma badge_order_NoDup : NoDup badge_order.
Proof.
  unfold badge_order.
  repeat constructor; simpl; intro H;
    repeat (destruct H as [H|H]; [discriminate H|]); exact H.
Qed.

(** [update_progress] in closed form: the badges added are the rules that
    fire, in evaluation order, minus the badges already held. *)
Lemma update_progress_closed today feedback s :
  let s1 := update_streak today s in
  let added := filter (fun b => badge_condition feedback s1 b && negb (has_badge s b))
                      badge_order in
  update_progress today feedback s =
  (mkProgress (badges s ++ added)%list (sessions_completed s1) (streak s1)
              (last_session_date s1), added).
Proof.
  cbv zeta. rewrite update_progress_award_all, award_all_spec.
  - cbv zeta. rewrite filter_pairs.
    assert (Hb : badges (update_streak today s) = badges s)
      by (unfold update_streak; destruct (match last_session_date s with
                                           | None => true
                                           | Some d => negb (Z.eqb d today) end);
          reflexivity).
    assert (Hh : forall b, has_badge (update_streak today s) b = has_badge s b)
      by (intros; unfold has_badge; rewrite Hb; reflexivity).
    rewrite (filter_ext _ (fun b => badge_condition feedback (update_streak today s) b
                                    && negb (has_badge s b)))
      by (intros; rewrite Hh; reflexivity).
    rewrite Hb. reflexivity.
  - rewrite map_map. simpl. exact badge_order_NoDup.
Qed.

Lemma update_streak_sessions today s :
  sessions_completed (update_streak today s) = sessions_completed s \/
  sessions_completed (update_streak today s) = (sessions_completed s + 1)%Z.
Proof.
  unfold update_streak.
  destruct (match last_session_date s with
            | None => true
            | Some d => negb (Z.eqb d today) end); simpl; [right|left]; reflexivity.
Qed.

Lemma dedicated_added feedback s1 s :
  In dedicated_learner
     (filter (fun b => badge_condition feedback s1 b && negb (has_badge s b)) badge_order)
  <-> sessions_completed s1 = 5%Z /\ ~ In dedicated_learner (badges s).
Proof.
  rewrite filter_In. rewrite <- has_badge_In.
  change (badge_condition feedback s1 dedicated_learner)
    with (Z.eqb (sessions_completed s1) 5).
  split.
  - intros [_ H]. apply andb_true_iff in H as [H1 H2].
    apply Z.eqb_eq in H1. split; [exact H1|]. intro E. rewrite E in H2. discriminate H2.
  - intros [H1 H2]. split; [simpl; auto|].
    apply andb_true_iff. split; [apply Z.eqb_eq; exact H1|].
    destruct (has_badge s dedicated_learner); [contradiction H2; reflexivity|reflexivity].
Qed.

Lemma update_streak_last today s : last_session_date (update_streak today s) = Some today.
Proof.
  unfold update_streak. destruct s as [b n k [d|]]; simpl; [|reflexivity].
  destruct (Z.eqb_spec d today) as [->|]; reflexivity.
Qed.

Lemma update_streak_same_day today s (H : last_session_date s = Some today) :
  update_streak today s = s.
Proof. unfold update_streak. rewrite H, Z.eqb_refl. reflexivity. Qed.

Lemma update_streak_badges today s : badges (update_streak today s) = badges s.
Proof.
  unfold update_streak.
  destruct (match last_session_date s with
            | None => true
            | Some d => negb (Z.eqb d today) end); reflexivity.
Qed.

(** The counters after the streak update, from counters of the shape kept by
    reachable states. *)
Lemma update_streak_counters today s
  (H1 : (0 <= streak s <= sessions_completed s)%Z)
  (H2 : last_session_date s = None <-> sessions_completed s = 0%Z)
  (H3 : (0 < sessions_completed s)%Z -> (1 <= streak s)%Z) :
  let s1 := update_streak today s in
  (1 <= streak s1 <= sessions_completed s1)%Z /\
  (sessions_completed s <= sessions_completed s1)%Z /\
  last_session_date s1 = Some today.
Proof.
  cbv zeta. split; [|split; [|apply update_streak_last]];
  unfold update_streak; destruct s as [b n k [d|]]; simpl in *.
  - destruct (negb (d =? today)%Z); simpl; [|assert (n <> 0%Z) by (intro E; apply H2 in E; discriminate E); lia].
    destruct (today - d =? 1)%Z; [lia|]. destruct (today - d >? 1)%Z; [lia|].
    assert (n <> 0%Z) by (intro E; apply H2 in E; discriminate E). lia.
  - lia.
  - destruct (negb (d =? today)%Z); simpl; lia.
  - lia.
Qed.

Lemma award_step_inv s1 test b st
  (Hb : In b badge_order)
  (Ht : forall s, sessions_completed s = sessions_completed s1 -> streak s = streak s1 ->
        test s = Ok true ->
        (b = dedicated_learner -> sessions_completed s1 = 5%Z) /\
        (b = three_day_streak -> (3 <= streak s1)%Z))
  (H : badge_step_inv s1 (fst st)) :
  badge_step_inv s1 (fst (award_step test b st)).
Proof.
  destruct st as [s r]. cbn [fst] in H.
  destruct H as (Hs & Hk & Hl & Hnd & x & Hx & Hgood).
  unfold award_step. destruct r as [nb|e]; [|exact (conj Hs (conj Hk (conj Hl (conj Hnd (ex_intro _ x (conj Hx Hgood))))))].
  destruct (test s) as [c|e] eqn:Et;
    [|exact (conj Hs (conj Hk (conj Hl (conj Hnd (ex_intro _ x (conj Hx Hgood))))))].
  unfold award. destruct (c && negb (has_badge s b)) eqn:Ec;
    [|exact (conj Hs (conj Hk (conj Hl (conj Hnd (ex_intro _ x (conj Hx Hgood))))))].
  apply andb_true_iff in Ec as [Ec Hnew]. subst c.
  cbn [fst badges sessions_completed streak last_session_date].
  split; [exact Hs|]. split; [exact Hk|]. split; [exact Hl|]. split.
  - apply NoDup_app; [exact Hnd | repeat constructor; intros [] |].
    intros a Ha [<-|[]]. rewrite <- has_badge_In in Ha. rewrite Ha in Hnew. discriminate Hnew.
  - exists (x ++ [b])%list. split; [rewrite Hx, app_assoc; reflexivity|].
    intros b' Hb'. apply in_app_iff in Hb' as [Hb'|[<-|[]]]; [exact (Hgood b' Hb')|].
    split; [exact Hb|]. exact (Ht s Hs Hk Et).
Qed.

(** One call of [update_progress], also one that raises, keeps the counters
    of the streak update and only appends badges of the five rules, each not
    held before, "Dedicated Learner" only when five sessions were counted and
    "3-Day Streak" only on a streak of at least three. *)
Lemma update_progress_json_inv today feedback s (Hnd : NoDup (badges s)) :
  badge_step_inv (update_streak today s) (fst (update_progress_json today feedback s)).
Proof.
  unfold update_progress_json.
  repeat apply award_step_inv;
    try (simpl; tauto);
    try (intros s' _ _ _; split; badge_neq).
  - intros s' _ Hk Ht. split; [badge_neq | intros _].
    injection Ht as Ht. apply Z.geb_le in Ht. lia.
  - intros s' Hs _ Ht. split; [intros _ | badge_neq].
    injection Ht as Ht. apply Z.eqb_eq in Ht. congruence.
  - cbn [fst]. split; [reflexivity|]. split; [reflexivity|]. split; [reflexivity|].
    split; [rewrite update_streak_badges; exact Hnd|].
    exists []. split; [rewrite app_nil_r; reflexivity | intros b []].
Qed.

(** Invariant of the reachable states: no badge is held twice,
    "Dedicated Learner" is held only after five sessions, the streak lies
    between 0 and the number of sessions (and is at least 1 once a session
    was completed), there is a date exactly when a session was completed,
    only the five known badges are held, and "3-Day Streak" only after three
    sessions. *)
Lemma reachable_json_invariant s (Hr : reachable s) :
  NoDup (badges s) /\
  (In dedicated_learner (badges s) -> (5 <= sessions_completed s)%Z) /\
  (0 <= streak s <= sessions_completed s)%Z /\
  (last_session_date s = None <-> sessions_completed s = 0%Z) /\
  ((0 < sessions_completed s)%Z -> (1 <= streak s)%Z) /\
  incl (badges s) badge_order /\
  (In three_day_streak (badges s) -> (3 <= sessions_completed s)%Z).
Proof.
  induction Hr as [|s today feedback Hr (Hnd & Hded & H1 & H2 & H3 & H4 & H5)].
  - simpl. split; [constructor|]. split; [intros []|]. split; [lia|].
    split; [split; reflexivity|]. split; [lia|]. split; [intros x []|intros []].
  - destruct (update_streak_counters today s H1 H2 H3) as (G1 & G2 & G3).
    destruct (update_progress_json_inv today feedback s Hnd)
      as (Hs & Hk & Hl & Hnd' & x & Hx & Hgood).
    rewrite update_streak_badges in Hx.
    set (s1 := update_streak today s) in *.
    set (s' := fst (update_progress_json today feedback s)) in *.
    rewrite Hx, Hs, Hk, Hl.
    split; [rewrite <- Hx; exact Hnd'|].
    split; [intros Hd; apply in_app_iff in Hd as [Hd|Hd];
            [apply Hded in Hd; lia |
             apply Hgood in Hd as (_ & Hd & _); specialize (Hd eq_refl); lia]|].
    split; [lia|]. split; [rewrite G3; split; [discriminate | lia]|].
    split; [lia|]. split.
    + apply incl_app; [exact H4|]. intros b Hb. apply (Hgood b Hb).
    + intros Hd. apply in_app_iff in Hd as [Hd|Hd];
        [apply H5 in Hd; lia | apply Hgood in Hd as (_ & _ & Hd); specialize (Hd eq_refl); lia].
Qed.

(** The invariant used for the badge rules. *)
Lemma reachable_invariant s (Hr : reachable s) :
  NoDup (badges s) /\
  (In dedicated_learner (badges s) -> (5 <= sessions_completed s)%Z) /\
  (0 <= sessions_completed s)%Z.
Proof.
  destruct (reachable_json_invariant s Hr) as (Hnd & Hded & Hk & _).
  split; [exact Hnd|]. split; [exact Hded | lia].
Qed.

(** C5 (amended): badge awarding by [update_progress] from any reachable
    state, including states left by calls that raised: the returned badges
    are exactly the rules that fire (overall_score > 85,
    sessions_completed = 5, streak >= 3, expression_score > 80,
    voice_score > 80) in evaluation order, minus the badges already held;
    they are appended to the held badges, which never contain duplicates;
    no held badge is returned again; "Dedicated Learner" is returned exactly
    when sessions_completed is 5 after the call and the badge is not held,
    and always on the call where sessions_completed goes from 4 to 5. *)
Theorem update_progress_badges today feedback s (Hr : reachable s) :
  let s1 := update_streak today s in
  let s' := fst (update_progress today feedback s) in
  let new_badges := snd (update_progress today feedback s) in
  new_badges = filter (fun b => badge_condition feedback s1 b && negb (has_badge s b))
                      badge_order /\
  badges s' = (badges s ++ new_badges)%list /\
  NoDup (badges s') /\
  (forall b, In b new_badges -> ~ In b (badges s)) /\
  (In dedicated_learner new_badges <->
     sessions_completed s' = 5%Z /\ ~ In dedicated_learner (badges s)) /\
  (sessions_completed s = 4%Z -> sessions_completed s' = 5%Z ->
     In dedicated_learner new_badges).
Proof.
  cbv zeta. rewrite update_progress_closed. cbn [fst snd badges sessions_completed].
  destruct (reachable_invariant s Hr) as (Hnd & Hded & Hpos).
  set (added := filter (fun b => badge_condition feedback (update_streak today s) b
                                  && negb (has_badge s b)) badge_order).
  assert (Hadd : forall b, In b added -> ~ In b (badges s)).
  { intros b Hb. apply filter_In in Hb as [_ Hb].
    apply andb_true_iff in Hb as [_ Hb]. rewrite <- has_badge_In.
    destruct (has_badge s b); [discriminate Hb | discriminate]. }
  split; [reflexivity|]. split; [reflexivity|].
  split; [apply NoDup_app; [exact Hnd | apply NoDup_filter, badge_order_NoDup |
                           intros a Ha Ha'; exact (Hadd a Ha' Ha)]|].
  split; [exact Hadd|].
  assert (Hd := dedicated_added feedback (update_streak today s) s).
  fold added in Hd. rewrite Hd.
  split; [split; intros H; exact H|].
  intros H4 H5. split; [exact H5|]. intros Hin. apply Hded in Hin. lia.
Qed.

Lemma update_progress_badges_witness :
  reachable init_progress /\
  snd (update_progress 739000 (mkReport 90 85 85 [] [] []) init_progress)
  = [star_performer; expression_master; voice_pro].
Proof.
  split; [exact reachable_init|].
  destruct (update_progress_badges 739000 (mkReport 90 85 85 [] [] []) init_progress
              reachable_init) as (H & _).
  rewrite H. reflexivity.
Defined.

(** C5 counterexample: the fifth session is counted on day 739004, but
    the call raises [TypeError] on a reply whose overall_score is a string,
    before the badge rules run, and the state is kept. A later call on the
    same day, with sessions_completed still 5, returns
    "Dedicated Learner". *)
Lemma dedicated_learner_after_raise :
  let r := mkReport 50 50 50 [] [] [] in
  let reply := JObj [("overall_score", JStr "great"); ("expression_score", JStr "good");
                     ("voice_score", JStr "good"); ("strengths", JStr "clear voice");
                     ("areas_to_improve", JStr "pace"); ("tips", JStr "slow down")] in
  let s4 := fst (update_progress_json 739003 (report_json r)
             (fst (update_progress_json 739002 (report_json r)
               (fst (update_progress_json 739001 (report_json r)
                 (fst (update_progress_json 739000 (report_json r) init_progress))))))) in
  let s := fst (update_progress_json 739004 reply s4) in
  reachable s /\
  snd (update_progress_json 739004 reply s4) = Error TypeError /\
  sessions_completed s = 5%Z /\ ~ In dedicated_learner (badges s) /\
  sessions_completed (fst (update_progress 739004 r s)) = 5%Z /\
  snd (update_progress 739004 r s) = [dedicated_learner].
Proof.
  cbv zeta.
  split; [repeat apply reachable_step; exact reachable_init|].
  split; [vm_compute; reflexivity|].
  split; [vm_compute; reflexivity|].
  split; [vm_compute; intros [E|[]]; discriminate E|].
  split; vm_compute; reflexivity.
Qed.

(** ** Remote failures and the local report *)

(** What [gemini_try] must have seen to return the remote reply. *)
Lemma gemini_try_remote_inv json_loads outcome j
  (H : gemini_try json_loads outcome = Ok (ReturnRemote j)) :
  exists status body result text,
    outcome = Response status body /\
    ((400 <=? status) && (status <? 600))%Z = false /\
    json_loads body = Some result /\
    candidate_text result = Ok (JStr text) /\
    json_loads text = Some j /\
    check_fields j required_fields = Ok true.
Proof.
  destruct outcome as [|status body]; [discriminate H|].
  unfold gemini_try in H.
  destruct ((400 <=? status) && (status <? 600))%Z eqn:Es; [discriminate H|].
  unfold loads in H.
  destruct (json_loads body) as [result|] eqn:Eb; cbn [bind] in H; [|discriminate H].
  destruct (py_contains result "candidates") as [has|e]; cbn [bind] in H; [|discriminate H].
  destruct has; cbn [bind] in H; [|discriminate H].
  destruct (py_getkey result "candidates") as [c|e]; cbn [bind] in H; [|discriminate H].
  destruct (py_len c) as [n|e]; cbn [bind] in H; [|discriminate H].
  destruct (Nat.ltb 0 n); [|discriminate H].
  destruct (candidate_text result) as [tc|e] eqn:Ec; cbn [bind] in H; [|discriminate H].
  destruct tc as [| | |text| |]; cbn [bind loads_value] in H; try discriminate H.
  unfold loads in H.
  destruct (json_loads text) as [fb|] eqn:Et; cbn [bind] in H; [|discriminate H].
  destruct (check_fields fb required_fields) as [[|]|e] eqn:Ef; cbn [bind] in H;
    try discriminate H.
  injection H as <-. exists status, body, result, text. repeat split; assumption.
Qed.

(** C2 (amended): for metrics dicts of the source's shape the engine never
    raises. Without a credential nothing is sent and the local report is
    returned. With one, exactly one request is sent, and the result is the
    remote reply only when the response status is outside 400..599, the body
    and the candidate text decode as JSON and the reply has the six required
    keys; on a transport error, a 4xx or 5xx status, undecodable JSON, an
    unexpected response shape or a missing key the result is exactly the
    local report of the no-credential path. An accepted reply is returned
    as it is: its values are not checked. *)
Theorem gemini_failures_fall_back json_loads post api_key prompt f a :
  exists r,
    generate_feedback_fallback (facial_dict f) (audio_dict a) = Ok r /\
    get_gemini_feedback json_loads post "" (facial_dict f) (audio_dict a) prompt
      = Ok ([], report_json r) /\
    (api_key <> "" ->
     get_gemini_feedback json_loads post api_key (facial_dict f) (audio_dict a) prompt
       = Ok ([gemini_request api_key prompt f a],
             match gemini_try json_loads (post (gemini_request api_key prompt f a)) with
             | Ok (ReturnRemote j) => j
             | _ => report_json r
             end)) /\
    gemini_try json_loads TransportFailure = Error ConnectionError /\
    (forall status body, (400 <= status < 600)%Z ->
       gemini_try json_loads (Response status body) = Error (HTTPError status)) /\
    (forall status body, ~ (400 <= status < 600)%Z -> json_loads body = None ->
       gemini_try json_loads (Response status body) = Error ValueError) /\
    (forall outcome j, gemini_try json_loads outcome = Ok (ReturnRemote j) ->
       exists status body result text,
         outcome = Response status body /\ ~ (400 <= status < 600)%Z /\
         json_loads body = Some result /\
         candidate_text result = Ok (JStr text) /\
         json_loads text = Some j /\
         check_fields j required_fields = Ok true).
Proof.
  destruct (fallback_record_scores f a) as (r & Hr & _).
  exists r. split; [exact Hr|].
  split; [rewrite (get_gemini_feedback_records json_loads post "" prompt f a r Hr);
          reflexivity|].
  split.
  { intros Hk. rewrite (get_gemini_feedback_records json_loads post api_key prompt f a r Hr).
    destruct (String.eqb_spec api_key "") as [E|_]; [contradiction|reflexivity]. }
  split; [reflexivity|].
  split.
  { intros status body Hs. unfold gemini_try.
    replace ((400 <=? status) && (status <? 600))%Z with true; [reflexivity|].
    symmetry. apply andb_true_iff. split; [apply Z.leb_le | apply Z.ltb_lt]; lia. }
  split.
  { intros status body Hs Hb. unfold gemini_try.
    replace ((400 <=? status) && (status <? 600))%Z with false.
    - unfold loads. rewrite Hb. reflexivity.
    - symmetry. apply not_true_iff_false. intros E.
      apply andb_true_iff in E as [E1 E2].
      apply Z.leb_le in E1. apply Z.ltb_lt in E2. apply Hs. lia. }
  intros outcome j H.
  destruct (gemini_try_remote_inv json_loads outcome j H)
    as (status & body & result & text & Ho & Es & Hb & Hc & Ht & Hf).
  exists status, body, result, text.
  split; [exact Ho|]. split; [|auto].
  intros [H1 H2]. apply Z.leb_le in H1. apply Z.ltb_lt in H2.
  rewrite H1, H2 in Es. discriminate Es.
Qed.

Lemma gemini_failures_fall_back_witness :
  exists r,
    generate_feedback_fallback (facial_dict (mkFacial 75 80 40 55))
      (audio_dict (mkAudio 70 75 60 85)) = Ok r /\
    get_gemini_feedback JsonText.decode (fun _ => TransportFailure) ""
      (facial_dict (mkFacial 75 80 40 55)) (audio_dict (mkAudio 70 75 60 85))
      "Introduce yourself" = Ok ([], report_json r) /\
    get_gemini_feedback JsonText.decode (fun _ => TransportFailure) "demo-key"
      (facial_dict (mkFacial 75 80 40 55)) (audio_dict (mkAudio 70 75 60 85))
      "Introduce yourself"
    = Ok ([gemini_request "demo-key" "Introduce yourself" (mkFacial 75 80 40 55)
                          (mkAudio 70 75 60 85)], report_json r).
Proof.
  destruct (gemini_failures_fall_back JsonText.decode (fun _ => TransportFailure) "demo-key"
              "Introduce yourself" (mkFacial 75 80 40 55) (mkAudio 70 75 60 85))
    as (r & Hr & H0 & Hk & HT & _).
  exists r. split; [exact Hr|]. split; [exact H0|].
  rewrite (Hk ltac:(discriminate)), HT. reflexivity.
Defined.

(** A reply whose candidate text is a dict with the six required keys passes
    the key-presence check and is returned as the feedback, whatever its
    values: here the scores are strings, so the result is not a report. *)
Lemma gemini_unvalidated_reply_returned :
  get_gemini_feedback JsonText.decode
    (fun _ => Response 200 (JsonText.q
       "{'candidates':[{'content':{'parts':[{'text':'{\'overall_score\':\'great\',\'expression_score\':\'good\',\'voice_score\':\'good\',\'strengths\':\'clear voice\',\'areas_to_improve\':\'pace\',\'tips\':\'slow down\'}'}]}}]}"))
    "demo-key" (facial_dict (mkFacial 75 80 40 55)) (audio_dict (mkAudio 70 75 60 85))
    "Introduce yourself"
  = Ok ([gemini_request "demo-key" "Introduce yourself" (mkFacial 75 80 40 55)
                        (mkAudio 70 75 60 85)],
        JObj [("overall_score", JStr "great"); ("expression_score", JStr "good");
              ("voice_score", JStr "good"); ("strengths", JStr "clear voice");
              ("areas_to_improve", JStr "pace"); ("tips", JStr "slow down")]) /\
  ~ valid_report_json
      (JObj [("overall_score", JStr "great"); ("expression_score", JStr "good");
             ("voice_score", JStr "good"); ("strengths", JStr "clear voice");
             ("areas_to_improve", JStr "pace"); ("tips", JStr "slow down")]).
Proof.
  split.
  - vm_compute. reflexivity.
  - intros (r & H & _). inversion H.
Qed.

(** ** Progress tracker: further properties *)

Lemma filter_all_false {A} (f : A -> bool) l (H : forall x, In x l -> f x = false) :
  filter f l = [].
Proof.
  induction l as [|x l IH]; simpl; [reflexivity|].
  rewrite (H x (or_introl eq_refl)). apply IH. intros y Hy. apply H. right. exact Hy.
Qed.

Lemma badge_condition_counters feedback s t b
  (Hs : sessions_completed s = sessions_completed t) (Ht : streak s = streak t) :
  badge_condition feedback s b = badge_condition feedback t b.
Proof. unfold badge_condition. rewrite Hs, Ht. reflexivity. Qed.

(** A second call of [update_progress] on the same day with the same
    feedback changes nothing and returns no badge: the date is already
    today, so the streak block is skipped, and every badge whose rule fires
    was added by the first call or held before. *)
Theorem update_progress_same_day_repeat today feedback s :
  let s' := fst (update_progress today feedback s) in
  update_progress today feedback s' = (s', []).
Proof.
  cbv zeta. rewrite (update_progress_closed today feedback s). cbn [fst].
  set (s1 := update_streak today s).
  set (added := filter (fun b => badge_condition feedback s1 b && negb (has_badge s b))
                       badge_order).
  set (s' := mkProgress (badges s ++ added)%list (sessions_completed s1) (streak s1)
                        (last_session_date s1)).
  rewrite (update_progress_closed today feedback s').
  assert (Hs : update_streak today s' = s').
  { apply update_streak_same_day. unfold s'. simpl. apply update_streak_last. }
  rewrite Hs.
  assert (Hf : filter (fun b => badge_condition feedback s' b && negb (has_badge s' b))
                      badge_order = []).
  { apply filter_all_false. intros b Hb.
    rewrite (badge_condition_counters feedback s' s1 b eq_refl eq_refl).
    destruct (badge_condition feedback s1 b) eqn:Ec; [|reflexivity].
    assert (Hin : In b (badges s')).
    { unfold s'. simpl. apply in_or_app.
      destruct (has_badge s b) eqn:Eh.
      - left. apply has_badge_In. exact Eh.
      - right. unfold added. apply filter_In. split; [exact Hb|].
        rewrite Ec, Eh. reflexivity. }
    apply has_badge_In in Hin. rewrite Hin. reflexivity. }
  rewrite Hf. unfold s'. simpl. rewrite app_nil_r. reflexivity.
Qed.

(** Every reachable state, also one left by calls that raised, has
    [0 <= streak <= sessions_completed], no date exactly when no session was
    completed, a streak of at least 1 once a session was completed, only the
    five known badges, and the "3-Day Streak" badge only after at least
    three sessions. *)
Theorem reachable_progress_counters s (Hr : reachable s) :
  (0 <= streak s <= sessions_completed s)%Z /\
  (last_session_date s = None <-> sessions_completed s = 0%Z) /\
  ((0 < sessions_completed s)%Z -> (1 <= streak s)%Z) /\
  incl (badges s) badge_order /\
  (In three_day_streak (badges s) -> (3 <= sessions_completed s)%Z).
Proof.
  destruct (reachable_json_invariant s Hr) as (_ & _ & H1 & H2 & H3 & H4 & H5).
  split; [exact H1|]. split; [exact H2|]. split; [exact H3|]. split; [exact H4 | exact H5].
Qed.

Lemma reachable_progress_counters_witness :
  let s := fst (update_progress_json 739003 (JArr [])
               (fst (update_progress_json 739002 (report_json (mkReport 50 50 50 [] [] []))
               (fst (update_progress_json 739001 (report_json (mkReport 50 50 50 [] [] []))
                    (fst (update_progress_json 739000 (report_json (mkReport 50 50 50 [] [] []))
                          init_progress))))))) in
  reachable s /\ (0 <= streak s <= sessions_completed s)%Z /\
  In three_day_streak (badges s).
Proof.
  cbv zeta.
  assert (Hr : reachable (fst (update_progress_json 739003 (JArr [])
               (fst (update_progress_json 739002 (report_json (mkReport 50 50 50 [] [] []))
               (fst (update_progress_json 739001 (report_json (mkReport 50 50 50 [] [] []))
                    (fst (update_progress_json 739000 (report_json (mkReport 50 50 50 [] [] []))
                          init_progress))))))))).
  { repeat apply reachable_step. exact reachable_init. }
  split; [exact Hr|].
  split; [apply (reachable_progress_counters _ Hr)|].
  apply In_existsb_string. vm_compute. reflexivity.
Defined.

(** The shape of one badge rule on the state and the result so far. *)
Lemma award_step_shape test b s0 r0 :
  exists x,
    badges (fst (award_step test b (s0, r0))) = (badges s0 ++ x)%list /\
    sessions_completed (fst (award_step test b (s0, r0))) = sessions_completed s0 /\
    streak (fst (award_step test b (s0, r0))) = streak s0 /\
    last_session_date (fst (award_step test b (s0, r0))) = last_session_date s0 /\
    (forall nb1, snd (award_step test b (s0, r0)) = Ok nb1 ->
       exists nb0, r0 = Ok nb0 /\ nb1 = (nb0 ++ x)%list).
Proof.
  unfold award_step. destruct r0 as [nb|e].
  - destruct (test s0) as [c|e].
    + unfold award. destruct (c && negb (has_badge s0 b)).
      * exists [b]. simpl. repeat split; try reflexivity.
        intros nb1 H. injection H as <-. exists nb. auto.
      * exists []. simpl. rewrite app_nil_r. repeat split; try reflexivity.
        intros nb1 H. injection H as <-. exists nb. rewrite app_nil_r. auto.
    + exists []. simpl. rewrite app_nil_r. repeat split; try reflexivity.
      intros nb1 H. discriminate H.
  - exists []. simpl. rewrite app_nil_r. repeat split; try reflexivity.
    intros nb1 H. discriminate H.
Qed.

Lemma award_step_preserves s0 test b st (H : progress_shape s0 st) :
  progress_shape s0 (award_step test b st).
Proof.
  destruct st as [s1 r1]. destruct H as (x & Hb & Hs & Ht & Hl & Hn).
  cbn [fst snd] in Hb, Hs, Ht, Hl, Hn. unfold progress_shape.
  destruct (award_step_shape test b s1 r1) as (y & Hb' & Hs' & Ht' & Hl' & Hn').
  exists (x ++ y)%list. rewrite Hb', Hb, app_assoc.
  repeat split; try congruence.
  intros nb Hnb. destruct (Hn' nb Hnb) as (nb0 & E & ->). rewrite (Hn nb0 E). reflexivity.
Qed.

Lemma update_progress_json_shape today feedback s :
  progress_shape (update_streak today s) (update_progress_json today feedback s).
Proof.
  unfold update_progress_json. repeat apply award_step_preserves.
  exists []. simpl. rewrite app_nil_r. repeat split; try reflexivity.
  intros nb H. injection H as <-. reflexivity.
Qed.

Lemma update_progress_json_first_read today feedback s e
  (H : score_above feedback "overall_score" 85 = Error e) :
  update_progress_json today feedback s = (update_streak today s, Error e).
Proof. unfold update_progress_json, award_step. cbv beta. rewrite H. reflexivity. Qed.

(** On every feedback dict, [update_progress] has counted the session and
    updated the streak and date before it reads the feedback, and it only
    appends badges; these changes stay when a read or a comparison of a
    score raises. When [feedback["overall_score"] > 85] raises, the state is
    exactly the one after the streak update. *)
Theorem update_progress_json_commits_counts today feedback s :
  let st := update_progress_json today feedback s in
  sessions_completed (fst st) = sessions_completed (update_streak today s) /\
  streak (fst st) = streak (update_streak today s) /\
  last_session_date (fst st) = Some today /\
  (exists added, badges (fst st) = (badges s ++ added)%list /\
                 forall nb, snd st = Ok nb -> nb = added) /\
  (forall e, score_above feedback "overall_score" 85 = Error e ->
     st = (update_streak today s, Error e)).
Proof.
  cbv zeta.
  destruct (update_progress_json_shape today feedback s) as (x & Hb & Hs & Ht & Hl & Hn).
  rewrite update_streak_badges in Hb. rewrite update_streak_last in Hl.
  repeat split; try assumption.
  - exists x. split; assumption.
  - intros e He. apply update_progress_json_first_read. exact He.
Qed.

Lemma award_step_ok test b s nb c (H : test s = Ok c) :
  award_step test b (s, Ok nb) = (fst (award c b (s, nb)), Ok (snd (award c b (s, nb)))).
Proof. unfold award_step. rewrite H. destruct (award c b (s, nb)); reflexivity. Qed.

Lemma update_progress_json_report_eq today r s :
  update_progress_json today (report_json r) s =
  (fst (update_progress today r s), Ok (snd (update_progress today r s))).
Proof.
  unfold update_progress_json, update_progress.
  repeat (erewrite award_step_ok by reflexivity).
  rewrite <- !surjective_pairing. reflexivity.
Qed.

(** The dict of a fallback report drives [update_progress] exactly as the
    report itself: the badge rules read its three scores and nothing
    raises. *)
Theorem update_progress_json_report today r s :
  update_progress_json today (report_json r) s =
  (fst (update_progress today r s), Ok (snd (update_progress today r s))).
Proof. exact (update_progress_json_report_eq today r s). Qed.

(** ** Audio features, extractor and aggregation: further properties *)





Lemma analyze_audio_ok np_sqrt piptrack zero_crossings y sr c pitches zc
  (Hp : piptrack y sr = Ok pitches) (Hz : zero_crossings y = Ok zc) :
  analyze_audio np_sqrt piptrack zero_crossings y sr c =
  Ok (audio_dict (mkAudio
    (py_min 100 (fscale (energy_of y) 1000))
    (py_min 100 (fscale (np_std np_sqrt (filter (fun p => Qltb 0 p) pitches)) 10))
    (py_min 100 (Some (inject_Z (count_true zc) / 1000)))
    c)).
Proof. unfold analyze_audio. rewrite Hp. cbn [bind]. rewrite Hz. reflexivity. Qed.

Lemma analyze_audio_inv np_sqrt piptrack zero_crossings y sr c d
  (H : analyze_audio np_sqrt piptrack zero_crossings y sr c = Ok d) :
  exists pitches zc, piptrack y sr = Ok pitches /\ zero_crossings y = Ok zc /\
    d = audio_dict (mkAudio
      (py_min 100 (fscale (energy_of y) 1000))
      (py_min 100 (fscale (np_std np_sqrt (filter (fun p => Qltb 0 p) pitches)) 10))
      (py_min 100 (Some (inject_Z (count_true zc) / 1000)))
      c).
Proof.
  unfold analyze_audio in H.
  destruct (piptrack y sr) as [pitches|e]; cbn [bind] in H; [|discriminate H].
  destruct (zero_crossings y) as [zc|e]; cbn [bind] in H; [|discriminate H].
  injection H as <-. exists pitches, zc. auto.
Qed.


(** When librosa reports no positive pitch, [np.std] of the empty selection
    is NaN and [min(100, NaN)] is 100, so pitch_variation is 100 and the
    fallback report praises "Excellent vocal variety". *)
Theorem analyze_audio_nan_saturates np_sqrt piptrack zero_crossings y sr c pitches zc
  (Hp : piptrack y sr = Ok pitches) (Hz : zero_crossings y = Ok zc)
  (Hpos : forall p, In p pitches -> (p <= 0)%Q) :
  exists d,
    analyze_audio np_sqrt piptrack zero_crossings y sr c = Ok d /\
    dict_get d "pitch_variation" = Ok 100 /\
    forall f, exists r,
      generate_feedback_fallback (facial_dict f) d = Ok r /\
      In "Excellent vocal variety" (strengths r).
Proof.
  assert (Hf : filter (fun p => Qltb 0 p) pitches = []).
  { apply filter_all_false. intros p Hin. apply Qltb_false. apply Hpos. exact Hin. }
  set (a := mkAudio (py_min 100 (fscale (energy_of y) 1000)) 100
              (py_min 100 (Some (inject_Z (count_true zc) / 1000))) c).
  exists (audio_dict a).
  split; [rewrite (analyze_audio_ok _ _ _ y sr c _ _ Hp Hz), Hf; reflexivity|].
  split; [reflexivity|].
  intros f.
  destruct (fallback_record_scores f a) as (r & Hr & _).
  exists r. split; [exact Hr|].
  destruct (fallback_rules _ _ r Hr) as (em & pv & cl & mm & spr & _ & Hpv & _ & _ & _ & _ & Hv & _).
  simpl in Hpv. injection Hpv as <-. apply Hv. reflexivity.
Qed.

Lemma analyze_audio_nan_saturates_witness :
  (fun (_ : list Q) (_ : Z) => Ok (@nil Q)) [1 # 10] 22050%Z = Ok [] /\
  (fun (_ : list Q) => Ok [true; false]) [1 # 10] = Ok [true; false] /\
  (forall p, In p (@nil Q) -> (p <= 0)%Q) /\
  exists d,
    analyze_audio Qsqrt_floor (fun _ _ => Ok []) (fun _ => Ok [true; false])
      [1 # 10] 22050%Z 70 = Ok d /\
    dict_get d "pitch_variation" = Ok 100.
Proof.
  assert (Hp : (fun (_ : list Q) (_ : Z) => Ok (@nil Q)) [1 # 10] 22050%Z = Ok [])
    by reflexivity.
  assert (Hz : (fun (_ : list Q) => Ok [true; false]) [1 # 10] = Ok [true; false])
    by reflexivity.
  assert (Hpos : forall p, In p (@nil Q) -> (p <= 0)%Q) by (intros p []).
  split; [exact Hp|]. split; [exact Hz|]. split; [exact Hpos|].
  destruct (analyze_audio_nan_saturates Qsqrt_floor (fun _ _ => Ok [])
              (fun _ => Ok [true; false]) [1 # 10] 22050%Z 70 [] [true; false] Hp Hz Hpos)
    as (d & Hd & Hpv & _).
  exists d. split; [exact Hd | exact Hpv].
Defined.

(** The metrics of one face with a full landmark list, on a dict of the
    facial shape: only expression_diversity is kept. *)
Lemma face_step_facial np_sqrt fl (Hlen : (468 <= length fl)%nat) :
  exists e m h, forall f,
    face_step np_sqrt (facial_dict f) fl =
    Ok (facial_dict (mkFacial (expression_diversity f) e m h)).
Proof.
  set (lm i := nth i fl (mkLandmark 0 0 0)).
  exists (np_sqrt ((lx (lm 145%nat) - lx (lm 374%nat)) * (lx (lm 145%nat) - lx (lm 374%nat)) +
                   (ly (lm 145%nat) - ly (lm 374%nat)) * (ly (lm 145%nat) - ly (lm 374%nat))) * 100),
         (Qabs (ly (lm 61%nat) - ly (lm 291%nat)) * 100),
         ((lz (lm 0%nat) + (1 # 2)) * 100).
  intros f. unfold face_step. rewrite (draw_landmarks_ok _ Hlen). cbn [bind].
  rewrite !landmark_nth by lia. reflexivity.
Qed.

Lemma face_step_short np_sqrt m fl (H : (length fl < 468)%nat) :
  face_step np_sqrt m fl = Error ValueError.
Proof. unfold face_step. rewrite (draw_landmarks_short _ H). reflexivity. Qed.

Lemma face_step_shape np_sqrt f fl d
  (H : face_step np_sqrt (facial_dict f) fl = Ok d) :
  exists g, d = facial_dict g /\ expression_diversity g = expression_diversity f.
Proof.
  destruct (Nat.lt_ge_cases (length fl) 468) as [Hs|Hl].
  - rewrite face_step_short in H by exact Hs. discriminate H.
  - destruct (face_step_facial np_sqrt fl Hl) as (e & m & h & Hf).
    rewrite Hf in H. injection H as <-.
    exists (mkFacial (expression_diversity f) e m h). split; reflexivity.
Qed.

Lemma face_loop_shape np_sqrt faces f d
  (H : face_loop np_sqrt (facial_dict f) faces = Ok d) :
  exists g, d = facial_dict g /\ expression_diversity g = expression_diversity f.
Proof.
  revert f H. induction faces as [|fl faces IH]; intros f H; simpl in H.
  - injection H as <-. exists f. auto.
  - destruct (face_step np_sqrt (facial_dict f) fl) as [m|e] eqn:E; simpl in H;
      [|discriminate H].
    destruct (face_step_shape np_sqrt f fl m E) as (g & -> & Hg).
    destruct (IH g H) as (g' & Hd & Hg'). exists g'. split; [exact Hd | congruence].
Qed.

Lemma process_face_landmarks_shape np_sqrt detection d
  (H : process_face_landmarks np_sqrt detection = Ok d) :
  exists g, d = facial_dict g /\ expression_diversity g = 0.
Proof.
  unfold process_face_landmarks in H.
  destruct detection as [faces|].
  - destruct faces as [|fl faces].
    + injection H as <-. exists (mkFacial 0 0 0 0). split; reflexivity.
    + destruct (face_loop_shape np_sqrt (fl :: faces) (mkFacial 0 0 0 0) d H) as (g & Hd & Hg).
      exists g. auto.
  - injection H as <-. exists (mkFacial 0 0 0 0). split; reflexivity.
Qed.

Lemma face_loop_full np_sqrt faces f
  (H : Forall (fun fl => (468 <= length fl)%nat) faces) :
  exists g, face_loop np_sqrt (facial_dict f) faces = Ok (facial_dict g) /\
            expression_diversity g = expression_diversity f.
Proof.
  revert f. induction H as [|fl faces Hfl Hfs IH]; intros f.
  - exists f. auto.
  - destruct (face_step_facial np_sqrt fl Hfl) as (e & m & h & Hst).
    simpl. rewrite Hst. simpl.
    destruct (IH (mkFacial (expression_diversity f) e m h)) as (g & Hg & Hed).
    exists g. split; [exact Hg | exact Hed].
Qed.

Lemma face_loop_app np_sqrt m faces ys :
  face_loop np_sqrt m (faces ++ ys)%list =
  let* m' := face_loop np_sqrt m faces in face_loop np_sqrt m' ys.
Proof.
  revert m. induction faces as [|fc faces IH]; intros m; simpl; [reflexivity|].
  destruct (face_step np_sqrt m fc); simpl; [apply IH|reflexivity].
Qed.

(** With several detected faces the loop overwrites the metrics, so the
    last face alone decides them; a face with fewer than the 468 points of
    the face mesh makes the drawing of the mesh raise [ValueError]; and every
    dict the extractor returns has the four facial keys, with
    expression_diversity 0. *)
Theorem process_face_landmarks_faces np_sqrt (faces : list FaceLandmarks) (fl : FaceLandmarks)
  (Hfaces : Forall (fun face => (468 <= length face)%nat) faces)
  (Hfl : (468 <= length fl)%nat) :
  process_face_landmarks np_sqrt (Some (faces ++ [fl])%list) =
  process_face_landmarks np_sqrt (Some [fl]) /\
  (forall short, (length short < 468)%nat ->
     process_face_landmarks np_sqrt (Some (short :: faces)) = Error ValueError) /\
  (forall detection d, process_face_landmarks np_sqrt detection = Ok d ->
     exists g, d = facial_dict g /\ expression_diversity g = 0).
Proof.
  split; [|split].
  - unfold process_face_landmarks.
    destruct (faces ++ [fl])%list as [|x xs] eqn:E; [destruct faces; discriminate E|].
    rewrite <- E. change initial_facial_metrics with (facial_dict (mkFacial 0 0 0 0)).
    destruct (face_loop_full np_sqrt faces (mkFacial 0 0 0 0) Hfaces) as (g & Hg & Hed).
    rewrite face_loop_app, Hg. cbn [bind face_loop].
    destruct (face_step_facial np_sqrt fl Hfl) as (e & m & h & Hst).
    rewrite !Hst. cbn [bind]. simpl in Hed. rewrite Hed. reflexivity.
  - intros short Hs. unfold process_face_landmarks. simpl.
    rewrite face_step_short by exact Hs. reflexivity.
  - intros detection d H. exact (process_face_landmarks_shape np_sqrt detection d H).
Qed.

Lemma process_face_landmarks_faces_witness :
  Forall (fun face => (468 <= length face)%nat) [repeat (mkLandmark 0 0 0) 478] /\
  (468 <= length (repeat (mkLandmark 1 1 1) 478))%nat /\
  process_face_landmarks Qsqrt_floor
    (Some [repeat (mkLandmark 0 0 0) 478; repeat (mkLandmark 1 1 1) 478]) =
  process_face_landmarks Qsqrt_floor (Some [repeat (mkLandmark 1 1 1) 478]).
Proof.
  assert (H1 : Forall (fun face => (468 <= length face)%nat) [repeat (mkLandmark 0 0 0) 478])
    by (repeat constructor; rewrite repeat_length; lia).
  assert (H2 : (468 <= length (repeat (mkLandmark 1 1 1) 478))%nat)
    by (rewrite repeat_length; lia).
  split; [exact H1|]. split; [exact H2|].
  exact (proj1 (process_face_landmarks_faces Qsqrt_floor [repeat (mkLandmark 0 0 0) 478]
                  (repeat (mkLandmark 1 1 1) 478) H1 H2)).
Defined.

Lemma dict_get_error d k e (H : dict_get d k = Error e) : e = KeyError k.
Proof.
  induction d as [|[k' v] d IH]; simpl in H; [injection H; auto|].
  destruct (String.eqb k k'); [discriminate H | exact (IH H)].
Qed.

Lemma mapM_ok_all {A B} (f : A -> res B) l ys (H : mapM f l = Ok ys) :
  forall x, In x l -> exists y, f x = Ok y.
Proof.
  revert ys H. induction l as [|x l IH]; intros ys H z Hz; [destruct Hz|].
  simpl in H. destruct (f x) as [y|e] eqn:E; simpl in H; [|discriminate H].
  destruct (mapM f l) as [ys'|e] eqn:E'; simpl in H; [|discriminate H].
  destruct Hz as [<-|Hz]; [eauto | exact (IH ys' eq_refl z Hz)].
Qed.

Lemma mapM_error_from {A B} (f : A -> res B) l e (H : mapM f l = Error e) :
  exists x, In x l /\ f x = Error e.
Proof.
  induction l as [|x l IH]; simpl in H; [discriminate H|].
  destruct (f x) as [y|e'] eqn:E; simpl in H.
  - destruct (mapM f l) as [ys|e'] eqn:E'; simpl in H; [discriminate H|].
    injection H as <-. destruct (IH eq_refl) as (z & Hz & Hfz).
    exists z. split; [right; exact Hz | exact Hfz].
  - injection H as <-. exists x. split; [left; reflexivity | exact E].
Qed.

Lemma mapM_keys (g : string -> res (string * Q)) l d
  (Hg : forall k p, g k = Ok p -> fst p = k) (H : mapM g l = Ok d) :
  map fst d = l.
Proof.
  revert d H. induction l as [|k l IH]; intros d H; simpl in H.
  - injection H as <-. reflexivity.
  - destruct (g k) as [p|e] eqn:Ek; simpl in H; [|discriminate H].
    destruct (mapM g l) as [d'|e] eqn:E; simpl in H; [|discriminate H].
    injection H as <-. simpl. rewrite (Hg k p Ek), (IH d' eq_refl). reflexivity.
Qed.

(** The averaged dict has exactly the keys of the first frame, in its
    order; a key of the first frame missing from a later frame makes the
    averaging raise a [KeyError]. *)
Theorem aggregate_keys_of_first_frame first rest :
  (forall d, aggregate_facial_metrics (first :: rest) = Ok d ->
     dict_keys d = dict_keys first) /\
  (forall k frame, In k (dict_keys first) -> In frame rest ->
     (forall v, dict_get frame k <> Ok v) ->
     exists k', aggregate_facial_metrics (first :: rest) = Error (KeyError k')).
Proof.
  split.
  - intros d H. unfold aggregate_facial_metrics in H.
    refine (mapM_keys _ _ d _ H).
    intros k p Hp. destruct (mapM (fun data => dict_get data k) (first :: rest));
      simpl in Hp; [injection Hp as <-; reflexivity | discriminate Hp].
  - intros k frame Hk Hf Hmiss.
    destruct (aggregate_facial_metrics (first :: rest)) as [d|e] eqn:E.
    + exfalso. unfold aggregate_facial_metrics in E.
      destruct (mapM_ok_all _ _ _ E k Hk) as (y & Hy).
      destruct (mapM (fun data => dict_get data k) (first :: rest)) as [vs|e] eqn:Ev;
        simpl in Hy; [|discriminate Hy].
      destruct (mapM_ok_all _ _ _ Ev frame (or_intror Hf)) as (v & Hv).
      exact (Hmiss v Hv).
    + unfold aggregate_facial_metrics in E.
      destruct (mapM_error_from _ _ _ E) as (metric & _ & Hm).
      destruct (mapM (fun data => dict_get data metric) (first :: rest)) as [vs|e'] eqn:Ev;
        simpl in Hm; [discriminate Hm|].
      injection Hm as ->.
      destruct (mapM_error_from _ _ _ Ev) as (data & _ & Hd).
      rewrite (dict_get_error _ _ _ Hd). eauto.
Qed.

(** ** Fallback report and engine: further properties *)

(** Every report of the fallback heuristic lists each strength and each
    area at most once, at most three strengths and two areas, all taken
    from the fixed texts of the heuristic. *)
Theorem fallback_lists_shape facial_metrics audio_metrics r
  (H : generate_feedback_fallback facial_metrics audio_metrics = Ok r) :
  NoDup (strengths r) /\ NoDup (areas_to_improve r) /\
  incl (strengths r) ["Good eye expressiveness"; "Excellent vocal variety";
                      "Clear pronunciation"; "Consistent delivery"] /\
  incl (areas_to_improve r) ["Facial expressions"; "Speech pace";
                             "Fine-tuning your natural style"] /\
  (length (strengths r) <= 3)%nat /\ (length (areas_to_improve r) <= 2)%nat.
Proof.
  unfold generate_feedback_fallback in H. res_cases H; simpl;
    repeat split;
    try (repeat constructor; simpl; intuition discriminate);
    try (intros x Hx; simpl in *; intuition); lia.
Qed.

Lemma fallback_lists_shape_witness :
  exists r, generate_feedback_fallback (facial_dict (mkFacial 75 80 40 55))
                                       (audio_dict (mkAudio 50 90 95 85)) = Ok r /\
            NoDup (strengths r) /\ (length (strengths r) <= 3)%nat.
Proof.
  eexists. split; [reflexivity|].
  destruct (fallback_lists_shape (facial_dict (mkFacial 75 80 40 55))
              (audio_dict (mkAudio 50 90 95 85)) _ eq_refl) as (H1 & _ & _ & _ & H5 & _).
  split; [exact H1 | exact H5].
Defined.

(** [head_position] is read only on the remote path, for the prompt: the
    fallback heuristic gives the same report without it, and so does the
    engine without a credential, but with a credential the engine raises
    [KeyError] before any request is sent. *)
Theorem head_position_remote_only json_loads post api_key prompt f a
  (Hk : api_key <> "") :
  generate_feedback_fallback (facial_dict_no_head f) (audio_dict a) =
  generate_feedback_fallback (facial_dict f) (audio_dict a) /\
  get_gemini_feedback json_loads post "" (facial_dict_no_head f) (audio_dict a) prompt =
  get_gemini_feedback json_loads post "" (facial_dict f) (audio_dict a) prompt /\
  get_gemini_feedback json_loads post api_key (facial_dict_no_head f) (audio_dict a) prompt =
  Error (KeyError "head_position").
Proof.
  split; [reflexivity|]. split; [reflexivity|].
  unfold get_gemini_feedback.
  destruct (String.eqb_spec api_key "") as [E|_]; [contradiction|reflexivity].
Qed.

Lemma head_position_remote_only_witness :
  "demo-key" <> "" /\
  get_gemini_feedback JsonText.decode (fun _ => TransportFailure) "demo-key"
    (facial_dict_no_head (mkFacial 75 80 40 55)) (audio_dict (mkAudio 50 90 95 85))
    "Introduce yourself" = Error (KeyError "head_position").
Proof.
  split; [discriminate|].
  assert (Hk : "demo-key" <> "") by discriminate.
  exact (proj2 (proj2 (head_position_remote_only JsonText.decode (fun _ => TransportFailure)
           "demo-key" "Introduce yourself" (mkFacial 75 80 40 55) (mkAudio 50 90 95 85) Hk))).
Defined.

(** ** A practice session of [main]: composition *)

Lemma record_loop_shape np_sqrt dur stop ticks l
  (H : record_loop np_sqrt dur stop ticks = Ok l) :
  exists gs, l = map facial_dict gs.
Proof.
  revert l H. induction ticks as [|[t fr] ticks IH]; intros l H; simpl in H.
  - injection H as <-. exists []. reflexivity.
  - destruct (Qle_bool (inject_Z dur) t || stop); [injection H as <-; exists []; reflexivity|].
    destruct fr as [det|]; [|injection H as <-; exists []; reflexivity].
    destruct (process_face_landmarks np_sqrt det) as [m|e] eqn:Em; simpl in H; [|discriminate H].
    destruct (record_loop np_sqrt dur stop ticks) as [rest|e] eqn:Er; simpl in H;
      [|discriminate H].
    injection H as <-. destruct (process_face_landmarks_shape _ _ _ Em) as (g & -> & _).
    destruct (IH rest eq_refl) as (gs & ->). exists (g :: gs). reflexivity.
Qed.

Lemma aggregate_facial_dicts f fs :
  aggregate_facial_metrics (map facial_dict (f :: fs)) =
  Ok (facial_dict (mkFacial (np_mean (map expression_diversity (f :: fs)))
                            (np_mean (map eye_movement (f :: fs)))
                            (np_mean (map mouth_movement (f :: fs)))
                            (np_mean (map head_position (f :: fs))))).
Proof.
  rewrite (aggregate_nonempty (map facial_dict (f :: fs)) (facial_dict f)
             (map facial_dict fs) eq_refl).
  assert (Hm : forall k sel, (forall g, dict_get (facial_dict g) k = Ok (sel g)) ->
            mapM (fun d => dict_get d k) (map facial_dict (f :: fs)) = Ok (map sel (f :: fs)))
    by (intros; apply mapM_get_facial; assumption).
  remember (map facial_dict (f :: fs)) as frames eqn:Hfr.
  simpl.
  rewrite (Hm "expression_diversity" expression_diversity) by reflexivity.
  rewrite (Hm "eye_movement" eye_movement) by reflexivity.
  rewrite (Hm "mouth_movement" mouth_movement) by reflexivity.
  rewrite (Hm "head_position" head_position) by reflexivity.
  reflexivity.
Qed.

(** A session that captured no frame (the stop button was pressed, or the
    first frame could not be read, or the duration had already elapsed)
    raises [IndexError] when averaging, before the audio analysis, the
    feedback request and the progress update: the progress and the history
    are unchanged and no request is sent. *)
Theorem practice_session_no_frames np_sqrt json_loads post piptrack zero_crossings
  today date api_key prompt dur stop ticks y sr c s history
  (H : record_loop np_sqrt dur stop ticks = Ok []) :
  practice_session np_sqrt json_loads post piptrack zero_crossings today date api_key prompt
    dur stop ticks y sr c s history = (s, history, [], Error IndexError) /\
  record_loop np_sqrt dur true ticks = Ok [] /\
  (forall t rest, record_loop np_sqrt dur stop ((t, None) :: rest) = Ok []) /\
  (forall t frame rest, (inject_Z dur <= t)%Q ->
     record_loop np_sqrt dur stop ((t, frame) :: rest) = Ok []).
Proof.
  split; [unfold practice_session; rewrite H; reflexivity|]. split.
  - destruct ticks as [|[t fr] ticks]; simpl; [reflexivity|].
    rewrite orb_true_r. reflexivity.
  - split.
    + intros t rest. simpl. destruct (Qle_bool (inject_Z dur) t || stop); reflexivity.
    + intros t frame rest Ht. simpl. apply Qle_bool_iff in Ht. rewrite Ht. reflexivity.
Qed.

(** Without a credential, a session that captured at least one frame and
    whose audio analysis returns completes: the local report of the averaged
    facial metrics and the audio metrics is recorded as the feedback, the
    progress is updated from its scores, one history entry is appended, and
    no request is sent. *)
Theorem practice_session_local np_sqrt json_loads post piptrack zero_crossings
  today date prompt dur stop ticks y sr c s history fd fds audio
  (H : record_loop np_sqrt dur stop ticks = Ok (fd :: fds))
  (Ha : analyze_audio np_sqrt piptrack zero_crossings y sr c = Ok audio) :
  exists avg r,
    aggregate_facial_metrics (fd :: fds) = Ok avg /\
    generate_feedback_fallback avg audio = Ok r /\
    practice_session np_sqrt json_loads post piptrack zero_crossings today date "" prompt
      dur stop ticks y sr c s history =
    (fst (update_progress today r s),
     (history ++ [mkSession date dur prompt avg audio (report_json r)
                            (snd (update_progress today r s))])%list,
     [], Ok tt).
Proof.
  unfold practice_session. rewrite H, Ha.
  destruct (analyze_audio_inv _ _ _ _ _ _ _ Ha) as (pitches & zc & _ & _ & ->).
  set (a := mkAudio _ _ _ c).
  destruct (record_loop_shape _ _ _ _ _ H) as (gs & Hgs).
  destruct gs as [|g gs]; [discriminate Hgs|]. rewrite Hgs, aggregate_facial_dicts.
  set (avgf := mkFacial _ _ _ _).
  destruct (fallback_record_scores avgf a) as (r & Hr & _).
  exists (facial_dict avgf), r.
  split; [reflexivity|]. split; [exact Hr|].
  rewrite (get_gemini_feedback_records json_loads post "" prompt avgf a r Hr).
  change (String.eqb "" "") with true. cbv iota beta.
  rewrite update_progress_json_report_eq. reflexivity.
Qed.

(** When the audio analysis raises, the session raises with that exception
    before the feedback is requested: the progress and the history are
    unchanged and no request is sent. *)
Theorem practice_session_audio_error np_sqrt json_loads post piptrack zero_crossings
  today date api_key prompt dur stop ticks y sr c s history facial_data avg e
  (Hloop : record_loop np_sqrt dur stop ticks = Ok facial_data)
  (Hagg : aggregate_facial_metrics facial_data = Ok avg)
  (Ha : analyze_audio np_sqrt piptrack zero_crossings y sr c = Error e) :
  practice_session np_sqrt json_loads post piptrack zero_crossings today date api_key prompt
    dur stop ticks y sr c s history = (s, history, [], Error e).
Proof. unfold practice_session. rewrite Hloop, Hagg, Ha. reflexivity. Qed.

(** When the feedback returned by the engine makes
    [feedback["overall_score"] > 85] raise (a reply whose score is not a
    number), the session raises after [update_progress] has counted it and
    updated the streak, and the session is not added to the history. *)
Theorem practice_session_progress_error np_sqrt json_loads post piptrack zero_crossings
  today date api_key prompt dur stop ticks y sr c s history facial_data avg audio
  sent feedback e
  (Hloop : record_loop np_sqrt dur stop ticks = Ok facial_data)
  (Hagg : aggregate_facial_metrics facial_data = Ok avg)
  (Ha : analyze_audio np_sqrt piptrack zero_crossings y sr c = Ok audio)
  (Heng : get_gemini_feedback json_loads post api_key avg audio prompt = Ok (sent, feedback))
  (Hscore : score_above feedback "overall_score" 85 = Error e) :
  practice_session np_sqrt json_loads post piptrack zero_crossings today date api_key prompt
    dur stop ticks y sr c s history = (update_streak today s, history, sent, Error e).
Proof.
  unfold practice_session. rewrite Hloop, Hagg, Ha, Heng.
  rewrite (update_progress_json_first_read today feedback s e Hscore). reflexivity.
Qed.

(** A session adds one entry to the history when it completes and none
    when it raises. *)
Theorem practice_session_history np_sqrt json_loads post piptrack zero_crossings
  today date api_key prompt dur stop ticks y sr c s history :
  let out := practice_session np_sqrt json_loads post piptrack zero_crossings today date
               api_key prompt dur stop ticks y sr c s history in
  (snd out = Ok tt -> exists entry, snd (fst (fst out)) = (history ++ [entry])%list) /\
  (forall e, snd out = Error e -> snd (fst (fst out)) = history).
Proof.
  cbv zeta. unfold practice_session.
  destruct (record_loop np_sqrt dur stop ticks) as [fd|e]; [|split; [discriminate|auto]].
  destruct (aggregate_facial_metrics fd) as [avg|e]; [|split; [discriminate|auto]].
  destruct (analyze_audio np_sqrt piptrack zero_crossings y sr c) as [audio|e];
    [|split; [discriminate|auto]].
  destruct (get_gemini_feedback json_loads post api_key avg audio prompt)
    as [[sent fb]|e]; [|split; [discriminate|auto]].
  destruct (update_progress_json today fb s) as [s' [nb|e]].
  - split; [intros _; eexists; reflexivity | discriminate].
  - split; [discriminate|auto].
Qed.

Lemma practice_session_no_frames_witness :
  record_loop Qsqrt_floor 20 true [(0%Q, Some (Some [repeat (mkLandmark 0 0 0) 478]))] = Ok [] /\
  practice_session Qsqrt_floor JsonText.decode (fun _ => TransportFailure)
    (fun _ _ => Ok []) (fun y => match y with [] => Error IndexError | _ => Ok [true] end)
    739000 "2026-10-17 10:00" "" "Introduce yourself" 20 true
    [(0%Q, Some (Some [repeat (mkLandmark 0 0 0) 478]))] [1 # 10] 22050 70 init_progress []
  = (init_progress, [], [], Error IndexError).
Proof.
  assert (H : record_loop Qsqrt_floor 20 true
                [(0%Q, Some (Some [repeat (mkLandmark 0 0 0) 478]))] = Ok []) by reflexivity.
  split; [exact H|].
  exact (proj1 (practice_session_no_frames Qsqrt_floor JsonText.decode
                  (fun _ => TransportFailure) (fun _ _ => Ok [])
                  (fun y => match y with [] => Error IndexError | _ => Ok [true] end) 739000
                  "2026-10-17 10:00" "" "Introduce yourself" 20 true
                  [(0%Q, Some (Some [repeat (mkLandmark 0 0 0) 478]))] [1 # 10] 22050 70
                  init_progress [] H)).
Defined.

Lemma practice_session_local_witness :
  let zc := fun (y : list Q) => match y with [] => Error IndexError | _ => Ok [true] end in
  let audio := match analyze_audio Qsqrt_floor (fun _ _ => Ok []) zc [1 # 10] 22050 70 with
               | Ok a => a
               | Error _ => []
               end in
  record_loop Qsqrt_floor 20 false [(0%Q, Some (Some [repeat (mkLandmark 0 0 0) 478]))]
  = Ok [facial_dict (mkFacial 0 0 0 (100 # 2))] /\
  analyze_audio Qsqrt_floor (fun _ _ => Ok []) zc [1 # 10] 22050 70 = Ok audio /\
  exists avg r,
    aggregate_facial_metrics [facial_dict (mkFacial 0 0 0 (100 # 2))] = Ok avg /\
    generate_feedback_fallback avg audio = Ok r /\
    practice_session Qsqrt_floor JsonText.decode (fun _ => TransportFailure)
      (fun _ _ => Ok []) zc 739000 "2026-10-17 10:00" "" "Introduce yourself" 20 false
      [(0%Q, Some (Some [repeat (mkLandmark 0 0 0) 478]))] [1 # 10] 22050 70 init_progress []
    = (fst (update_progress 739000 r init_progress),
       [mkSession "2026-10-17 10:00" 20 "Introduce yourself" avg audio
          (report_json r) (snd (update_progress 739000 r init_progress))],
       [], Ok tt).
Proof.
  intros zc audio.
  assert (H : record_loop Qsqrt_floor 20 false
                [(0%Q, Some (Some [repeat (mkLandmark 0 0 0) 478]))]
              = Ok [facial_dict (mkFacial 0 0 0 (100 # 2))]) by (vm_compute; reflexivity).
  assert (Ha : analyze_audio Qsqrt_floor (fun _ _ => Ok []) zc [1 # 10] 22050 70 = Ok audio)
    by (vm_compute; reflexivity).
  split; [exact H|]. split; [exact Ha|].
  exact (practice_session_local Qsqrt_floor JsonText.decode (fun _ => TransportFailure)
           (fun _ _ => Ok []) zc 739000 "2026-10-17 10:00" "Introduce yourself" 20 false
           [(0%Q, Some (Some [repeat (mkLandmark 0 0 0) 478]))] [1 # 10] 22050 70
           init_progress [] _ _ audio H Ha).
Defined.

Lemma practice_session_audio_error_witness :
  let zc := fun (y : list Q) => match y with [] => Error IndexError | _ => Ok [true] end in
  record_loop Qsqrt_floor 20 false [(0%Q, Some (Some [repeat (mkLandmark 0 0 0) 478]))]
  = Ok [facial_dict (mkFacial 0 0 0 (100 # 2))] /\
  aggregate_facial_metrics [facial_dict (mkFacial 0 0 0 (100 # 2))]
  = Ok (facial_dict (mkFacial 0 0 0 (100 # 2))) /\
  analyze_audio Qsqrt_floor (fun _ _ => Ok []) zc [] 22050 70 = Error IndexError /\
  practice_session Qsqrt_floor JsonText.decode (fun _ => TransportFailure)
    (fun _ _ => Ok []) zc 739000 "2026-10-17 10:00" "demo-key" "Introduce yourself" 20 false
    [(0%Q, Some (Some [repeat (mkLandmark 0 0 0) 478]))] [] 22050 70 init_progress []
  = (init_progress, [], [], Error IndexError).
Proof.
  intros zc.
  assert (H1 : record_loop Qsqrt_floor 20 false
                 [(0%Q, Some (Some [repeat (mkLandmark 0 0 0) 478]))]
               = Ok [facial_dict (mkFacial 0 0 0 (100 # 2))]) by (vm_compute; reflexivity).
  assert (H2 : aggregate_facial_metrics [facial_dict (mkFacial 0 0 0 (100 # 2))]
               = Ok (facial_dict (mkFacial 0 0 0 (100 # 2)))) by (vm_compute; reflexivity).
  assert (H3 : analyze_audio Qsqrt_floor (fun _ _ => Ok []) zc [] 22050 70 = Error IndexError)
    by reflexivity.
  exact (conj H1 (conj H2 (conj H3
           (practice_session_audio_error Qsqrt_floor JsonText.decode
              (fun _ => TransportFailure) (fun _ _ => Ok []) zc 739000 "2026-10-17 10:00"
              "demo-key" "Introduce yourself" 20 false
              [(0%Q, Some (Some [repeat (mkLandmark 0 0 0) 478]))] [] 22050 70
              init_progress [] _ _ _ H1 H2 H3)))).
Defined.

Lemma practice_session_progress_error_witness :
  let post := fun (_ : GeminiRequest) => Response 200 (JsonText.q
       "{'candidates':[{'content':{'parts':[{'text':'{\'overall_score\':\'great\',\'expression_score\':\'good\',\'voice_score\':\'good\',\'strengths\':\'clear voice\',\'areas_to_improve\':\'pace\',\'tips\':\'slow down\'}'}]}}]}") in
  let zc := fun (y : list Q) => match y with [] => Error IndexError | _ => Ok [true] end in
  let fd := facial_dict (mkFacial 0 0 0 (100 # 2)) in
  let audio := match analyze_audio Qsqrt_floor (fun _ _ => Ok []) zc [1 # 10] 22050 70 with
               | Ok a => a
               | Error _ => []
               end in
  let reply := JObj [("overall_score", JStr "great"); ("expression_score", JStr "good");
                     ("voice_score", JStr "good"); ("strengths", JStr "clear voice");
                     ("areas_to_improve", JStr "pace"); ("tips", JStr "slow down")] in
  exists sent,
    record_loop Qsqrt_floor 20 false [(0%Q, Some (Some [repeat (mkLandmark 0 0 0) 478]))]
      = Ok [fd] /\
    aggregate_facial_metrics [fd] = Ok fd /\
    analyze_audio Qsqrt_floor (fun _ _ => Ok []) zc [1 # 10] 22050 70 = Ok audio /\
    get_gemini_feedback JsonText.decode post "demo-key" fd audio "Introduce yourself"
      = Ok (sent, reply) /\
    score_above reply "overall_score" 85 = Error TypeError /\
    practice_session Qsqrt_floor JsonText.decode post (fun _ _ => Ok []) zc 739000
      "2026-10-17 10:00" "demo-key" "Introduce yourself" 20 false
      [(0%Q, Some (Some [repeat (mkLandmark 0 0 0) 478]))] [1 # 10] 22050 70 init_progress []
    = (update_streak 739000 init_progress, [], sent, Error TypeError).
Proof.
  intros post zc fd audio reply.
  exists (match get_gemini_feedback JsonText.decode post "demo-key" fd audio
                  "Introduce yourself" with
          | Ok (sent, _) => sent
          | Error _ => []
          end).
  assert (H1 : record_loop Qsqrt_floor 20 false
                 [(0%Q, Some (Some [repeat (mkLandmark 0 0 0) 478]))] = Ok [fd])
    by (vm_compute; reflexivity).
  assert (H2 : aggregate_facial_metrics [fd] = Ok fd) by (vm_compute; reflexivity).
  assert (Ha : analyze_audio Qsqrt_floor (fun _ _ => Ok []) zc [1 # 10] 22050 70 = Ok audio)
    by (vm_compute; reflexivity).
  assert (H3 : get_gemini_feedback JsonText.decode post "demo-key" fd audio "Introduce yourself"
               = Ok (match get_gemini_feedback JsonText.decode post "demo-key" fd audio
                             "Introduce yourself" with
                     | Ok (sent, _) => sent
                     | Error _ => []
                     end, reply)) by (vm_compute; reflexivity).
  assert (H4 : score_above reply "overall_score" 85 = Error TypeError) by reflexivity.
  exact (conj H1 (conj H2 (conj Ha (conj H3 (conj H4
           (practice_session_progress_error Qsqrt_floor JsonText.decode post
              (fun _ _ => Ok []) zc 739000 "2026-10-17 10:00" "demo-key"
              "Introduce yourself" 20 false
              [(0%Q, Some (Some [repeat (mkLandmark 0 0 0) 478]))] [1 # 10] 22050 70
              init_progress [] [fd] fd audio _ reply TypeError H1 H2 Ha H3 H4)))))).
Defined.
